(** * NYC yellow-taxi dashboard ([app.py]): a shallow embedding

    The script is a straight-line pandas/Streamlit program.  A data frame is
    modelled as the list of its column names together with the list of its
    rows; a series is the list of its values in row order.  Nullable
    datetime and integer cells are [option Z] ([None] is NaT / NA), float
    cells are IEEE binary64 numbers ([PrimFloat.float], NaN is the null).
    Timestamps are whole seconds since 1970-01-01T00:00 (the resolution of
    the trip records), dates are days since 1970-01-01.  Python exceptions
    are the [Raise] case of [result]; what Streamlit has put on the page is
    the element list threaded by the [script] monad.  [st.cache_data] only
    memoises [load_data], a function of the two sources, and is left out. *)

From Stdlib Require Import ZArith List String Ascii Lia Permutation Sorted.
From Stdlib Require Import PrimFloat FloatOps SpecFloat Uint63 DecimalString.
From Stdlib Require OrderedTypeEx.
From stdpp Require Import base option list sorting gmap strings.

Local Open Scope string_scope.
Local Open Scope Z_scope.

(** ** Exceptions *)

Inductive exn : Type :=
| OSError (path : string)      (* FileNotFoundError, PermissionError, ... *)
| KeyError (missing : list string)
| IndexError
| ValueError (column : string).

Inductive result (A : Type) : Type :=
| Ok (a : A)
| Raise (e : exn).
Arguments Ok {A} a.
Arguments Raise {A} e.

Definition rbind {A B} (m : result A) (k : A -> result B) : result B :=
  match m with
  | Ok a => k a
  | Raise e => Raise e
  end.

Declare Scope result_scope.
Delimit Scope result_scope with result.
Notation "'let*' x ':=' m 'in' k" := (rbind m (fun x => k))
  (at level 10, x pattern, m at level 100, k at level 200) : result_scope.
Local Open Scope result_scope.

(** ** Series and data frames *)

Definition Series (A : Type) : Type := list A.

Record DataFrame (R : Type) : Type := mkFrame {
  columns : list string;
  rows : list R
}.
Arguments mkFrame {R} columns rows.
Arguments columns {R} d.
Arguments rows {R} d.

(** [df[c]]: the column named [c], read off the rows by [field]; a name that
    is not among the frame's columns is a [KeyError]. *)
Definition getitem {R A} (df : DataFrame R) (c : string) (field : R -> A)
  : result (Series A) :=
  if decide (c ∈ columns df) then Ok (map field (rows df))
  else Raise (KeyError [c]).

(** The names of a list that are not columns of the frame. *)
Definition missing_from {R} (df : DataFrame R) (names : list string)
  : list string :=
  List.filter (fun c => bool_decide (c ∉ columns df)) names.

(** [df[c] = s]: the column is overwritten when it exists and appended
    otherwise. *)
Definition setitem {R A} (df : DataFrame R) (c : string)
    (store : A -> R -> R) (s : Series A) : DataFrame R :=
  {| columns := if decide (c ∈ columns df) then columns df
                else (columns df ++ [c])%list;
     rows := zip_with (fun r v => store v r) (rows df) s |}.

(** [df[mask]] with a boolean series. *)
Fixpoint boolean_index {R} (rs : list R) (mask : Series bool) : list R :=
  match rs, mask with
  | r :: rs', b :: mask' =>
      if b then r :: boolean_index rs' mask' else boolean_index rs' mask'
  | _, _ => []
  end.

Definition df_mask {R} (df : DataFrame R) (mask : Series bool) : DataFrame R :=
  {| columns := columns df; rows := boolean_index (rows df) mask |}.

(** [a & b] on boolean series. *)
Definition mask_and (a b : Series bool) : Series bool := zip_with andb a b.
Infix "&" := mask_and (at level 40, left associativity).

(** Comparisons of a float series with a scalar; every comparison with NaN
    is [False]. *)
Definition float_gt (s : Series float) (x : float) : Series bool :=
  map (fun v => PrimFloat.ltb x v) s.
Definition float_le (s : Series float) (x : float) : Series bool :=
  map (fun v => PrimFloat.leb v x) s.

(** Comparison of two datetime series; a comparison with NaT is [False]. *)
Definition cell_gt (a b : option Z) : bool :=
  match a, b with
  | Some u, Some v => v <? u
  | _, _ => false
  end.
Definition datetime_gt (a b : Series (option Z)) : Series bool :=
  zip_with cell_gt a b.

(** [Series.between(left, right)], inclusive on both sides. *)
Definition cell_between (left right : Z) (v : option Z) : bool :=
  match v with
  | Some x => (left <=? x) && (x <=? right)
  | None => false
  end.
Definition between (s : Series (option Z)) (left right : Z) : Series bool :=
  map (cell_between left right) s.

(** [Series.isin(values)]. *)
Definition cell_isin (values : list Z) (v : option Z) : bool :=
  match v with
  | Some x => existsb (Z.eqb x) values
  | None => false
  end.
Definition isin (s : Series (option Z)) (values : list Z) : Series bool :=
  map (cell_isin values) s.

(** ** The [.dt] accessor *)

Definition date_of (t : Z) : Z := t / 86400.
Definition hour_of (t : Z) : Z := (t mod 86400) / 3600.
(** 1970-01-01 was a Thursday; 0 is Monday. *)
Definition weekday_of (t : Z) : Z := (date_of t + 3) mod 7.

Definition day_names : list string :=
  ["Monday"; "Tuesday"; "Wednesday"; "Thursday"; "Friday"; "Saturday";
   "Sunday"].

Definition day_name_of (t : Z) : string :=
  nth (Z.to_nat (weekday_of t)) day_names "Sunday".

Definition dt_date (s : Series (option Z)) : Series (option Z) :=
  map (option_map date_of) s.
Definition dt_hour (s : Series (option Z)) : Series (option Z) :=
  map (option_map hour_of) s.
Definition dt_day_name (s : Series (option Z)) : Series (option string) :=
  map (option_map day_name_of) s.

(** [pd.to_datetime] of a column that already holds timestamps. *)
Definition to_datetime (s : Series (option Z)) : Series (option Z) := s.

(** ** Trip and zone records *)

Record Trip : Type := mkTrip {
  tpep_pickup_datetime : option Z;
  tpep_dropoff_datetime : option Z;
  PULocationID : option Z;
  DOLocationID : option Z;
  payment_type : option Z;
  fare_amount : float;
  total_amount : float;
  trip_distance : float;
  (* columns added by [load_data] *)
  pickup_date : option Z;
  pickup_hour : option Z;
  pickup_dayofweek : option string
}.

Definition set_tpep_pickup_datetime (v : option Z) (r : Trip) : Trip :=
  mkTrip v (tpep_dropoff_datetime r) (PULocationID r) (DOLocationID r)
    (payment_type r) (fare_amount r) (total_amount r) (trip_distance r)
    (pickup_date r) (pickup_hour r) (pickup_dayofweek r).
Definition set_pickup_date (v : option Z) (r : Trip) : Trip :=
  mkTrip (tpep_pickup_datetime r) (tpep_dropoff_datetime r) (PULocationID r)
    (DOLocationID r) (payment_type r) (fare_amount r) (total_amount r)
    (trip_distance r) v (pickup_hour r) (pickup_dayofweek r).
Definition set_pickup_hour (v : option Z) (r : Trip) : Trip :=
  mkTrip (tpep_pickup_datetime r) (tpep_dropoff_datetime r) (PULocationID r)
    (DOLocationID r) (payment_type r) (fare_amount r) (total_amount r)
    (trip_distance r) (pickup_date r) v (pickup_dayofweek r).
Definition set_pickup_dayofweek (v : option string) (r : Trip) : Trip :=
  mkTrip (tpep_pickup_datetime r) (tpep_dropoff_datetime r) (PULocationID r)
    (DOLocationID r) (payment_type r) (fare_amount r) (total_amount r)
    (trip_distance r) (pickup_date r) (pickup_hour r) v.

Record ZoneRow : Type := mkZone {
  LocationID : Z;
  Borough : string;
  Zone : string
}.

(** ** The data loader (lines 6-24) *)

(** What the two reads find: [None] is a source that cannot be read. *)
Record Sources : Type := mkSources {
  parquet : option (DataFrame Trip);
  csv : option (DataFrame ZoneRow)
}.

Definition trip_path : string := "data/raw/yellow_tripdata_2024-01.parquet".
Definition zone_path : string := "data/raw/taxi_zone_lookup.csv".

Definition read_parquet (src : Sources) (path : string)
  : result (DataFrame Trip) :=
  match parquet src with
  | Some df => Ok df
  | None => Raise (OSError path)
  end.

Definition read_csv (src : Sources) (path : string)
  : result (DataFrame ZoneRow) :=
  match csv src with
  | Some df => Ok df
  | None => Raise (OSError path)
  end.

Definition isna_float (x : float) : bool := negb (PrimFloat.eqb x x).
Definition isna_cell {A} (x : option A) : bool :=
  match x with Some _ => false | None => true end.

(** The null test of each column that [dropna] is asked about. *)
Definition critical_columns : list (string * (Trip -> bool)) :=
  [("tpep_pickup_datetime", fun r => isna_cell (tpep_pickup_datetime r));
   ("tpep_dropoff_datetime", fun r => isna_cell (tpep_dropoff_datetime r));
   ("PULocationID", fun r => isna_cell (PULocationID r));
   ("DOLocationID", fun r => isna_cell (DOLocationID r));
   ("fare_amount", fun r => isna_float (fare_amount r))].

(** [df.dropna(subset=...)]: a [KeyError] listing the names of the subset
    that are not columns, otherwise the rows with no null in the subset. *)
Definition dropna {R} (df : DataFrame R) (subset : list (string * (R -> bool)))
  : result (DataFrame R) :=
  match missing_from df (map fst subset) with
  | c :: cs => Raise (KeyError (c :: cs))
  | [] =>
      Ok {| columns := columns df;
            rows := List.filter
                      (fun r => negb (existsb (fun c => c.2 r) subset))
                      (rows df) |}
  end.

Definition load_data (src : Sources)
  : result (DataFrame Trip * DataFrame ZoneRow) :=
  let* df := read_parquet src trip_path in
  let* zones_df := read_csv src zone_path in
  let* df := dropna df critical_columns in
  let* distance := getitem df "trip_distance" trip_distance in
  let* fare := getitem df "fare_amount" fare_amount in
  let* fare' := getitem df "fare_amount" fare_amount in
  let* dropoff := getitem df "tpep_dropoff_datetime" tpep_dropoff_datetime in
  let* pickup := getitem df "tpep_pickup_datetime" tpep_pickup_datetime in
  let df := df_mask df (float_gt distance 0 & float_gt fare 0
                        & float_le fare' 500 & datetime_gt dropoff pickup) in
  let* pickup := getitem df "tpep_pickup_datetime" tpep_pickup_datetime in
  let df := setitem df "tpep_pickup_datetime" set_tpep_pickup_datetime
              (to_datetime pickup) in
  let* pickup := getitem df "tpep_pickup_datetime" tpep_pickup_datetime in
  let df := setitem df "pickup_date" set_pickup_date (dt_date pickup) in
  let* pickup := getitem df "tpep_pickup_datetime" tpep_pickup_datetime in
  let df := setitem df "pickup_hour" set_pickup_hour (dt_hour pickup) in
  let* pickup := getitem df "tpep_pickup_datetime" tpep_pickup_datetime in
  let df := setitem df "pickup_dayofweek" set_pickup_dayofweek
              (dt_day_name pickup) in
  Ok (df, zones_df).

(** ** The filter engine (lines 53-57) *)

(** [t[i]] on a tuple. *)
Definition subscript {A} (t : list A) (i : nat) : result A :=
  match t !! i with
  | Some x => Ok x
  | None => Raise IndexError
  end.

Definition payment_options : list Z := [1; 2; 3; 4; 5].

Definition payment_labels : gmap Z string :=
  <[1 := "Credit card"]> (<[2 := "Cash"]> (<[3 := "No charge"]>
    (<[4 := "Dispute"]> (<[5 := "Unknown"]> ∅)))).

Definition filtered_df (df : DataFrame Trip) (date_range : list Z)
    (hour_range : Z * Z) (selected_payments : list Z)
  : result (DataFrame Trip) :=
  let* dates := getitem df "pickup_date" pickup_date in
  let* d0 := subscript date_range 0 in
  let* d1 := subscript date_range 1 in
  let* hours := getitem df "pickup_hour" pickup_hour in
  let* payments := getitem df "payment_type" payment_type in
  Ok (df_mask df (between dates d0 d1
                  & between hours hour_range.1 hour_range.2
                  & isin payments selected_payments)).

(** ** Numbers and their formatting *)

(** int64 to float64, for magnitudes below [2^63]. *)
Definition float_of_Z (z : Z) : float :=
  if z <? 0 then PrimFloat.opp (PrimFloat.of_uint63 (Uint63.of_Z (- z)))
  else PrimFloat.of_uint63 (Uint63.of_Z z).

(** [Series.sum()] and [Series.mean()] with the default [skipna=True]; the
    sum runs left to right from [0.0], the mean of no value is NaN. *)
Definition notna (s : Series float) : list float :=
  List.filter (fun x => negb (isna_float x)) s.

Definition series_sum (s : Series float) : float :=
  fold_left PrimFloat.add (notna s) 0%float.

Definition series_mean (s : Series float) : float :=
  let count := Z.of_nat (length (notna s)) in
  if 0 <? count then PrimFloat.div (series_sum s) (float_of_Z count)
  else nan.

(** Decimal digits of a natural number, and their grouping by thousands. *)
Definition digits (n : Z) : list ascii :=
  list_ascii_of_string (NilZero.string_of_uint (N.to_uint (Z.to_N n))).

Fixpoint group3 (rev_digits : list ascii) : list ascii :=
  match rev_digits with
  | a :: b :: c :: ((_ :: _) as more) =>
      a :: b :: c :: ","%char :: group3 more
  | _ => rev_digits
  end.

Definition grouped (comma : bool) (ds : list ascii) : list ascii :=
  if comma then rev (group3 (rev ds)) else ds.

(** [f"{n:,}"] for an integer [n >= 0]. *)
Definition format_int (n : Z) : string :=
  string_of_list_ascii (grouped true (digits n)).

(** The integer nearest to [m * 2^e * 10^p], ties to even: Python prints
    the exact binary value of a float correctly rounded. *)
Definition scaled_round (m e : Z) (p : nat) : Z :=
  let num := m * 10 ^ Z.of_nat p in
  if 0 <=? e then num * 2 ^ e
  else
    let den := 2 ^ (- e) in
    let q := num / den in
    let r := num mod den in
    if (den <? 2 * r) || ((den =? 2 * r) && Z.odd q) then q + 1 else q.

(** The digits of [n] with a decimal point before the last [p] of them. *)
Definition fixed_digits (comma : bool) (p : nat) (n : Z) : string :=
  let ds := digits n in
  let ds := (repeat "0"%char (S p - length ds) ++ ds)%list in
  let k := (length ds - p)%nat in
  let int_part := string_of_list_ascii (grouped comma (firstn k ds)) in
  match p with
  | O => int_part
  | _ => String.append int_part
           (String "."%char (string_of_list_ascii (skipn k ds)))
  end.

(** [f"{x:.pf}"], and [f"{x:,.pf}"] when [comma] is set. *)
Definition format_float (comma : bool) (p : nat) (x : float) : string :=
  match Prim2SF x with
  | S754_nan => "nan"
  | S754_infinity s => if s then "-inf" else "inf"
  | S754_zero s =>
      String.append (if s then "-" else "") (fixed_digits comma p 0)
  | S754_finite s m e =>
      String.append (if s then "-" else "")
        (fixed_digits comma p (scaled_round (Z.pos m) e p))
  end.

(** ** Grouping, counting and sorting *)

(** The distinct values of a list in order of first appearance. *)
Fixpoint unique {K} `{EqDecision K} (l : list K) : list K :=
  match l with
  | [] => []
  | x :: l' => x :: List.filter (fun y => bool_decide (y <> x)) (unique l')
  end.

Definition count {K} `{EqDecision K} (k : K) (l : list K) : nat :=
  length (List.filter (fun x => bool_decide (x = k)) l).

(** Stable insertion sort for a boolean order. *)
Fixpoint insert_by {A} (le : A -> A -> bool) (x : A) (l : list A) : list A :=
  match l with
  | [] => [x]
  | y :: l' => if le x y then x :: l else y :: insert_by le x l'
  end.

Definition sort_by {A} (le : A -> A -> bool) (l : list A) : list A :=
  foldr (insert_by le) [] l.

(** Null keys are dropped by [groupby] and by [value_counts]. *)
Definition dropnull {K} (s : Series (option K)) : list K := omap id s.

(** [groupby(key).size()]: one entry per distinct non-null key, keys in
    ascending order. *)
Definition groupby_size {K} `{EqDecision K} (le : K -> K -> bool)
    (keys : Series (option K)) : list (K * nat) :=
  let ks := dropnull keys in
  map (fun k => (k, count k ks)) (sort_by le (unique ks)).

(** [Series.nlargest(n)]: the [n] largest counts in descending order, equal
    counts in their order in the series. *)
Definition nlargest {K} (n : nat) (s : list (K * nat)) : list (K * nat) :=
  firstn n (sort_by (fun a b => Nat.leb b.2 a.2) s).

(** [value_counts(normalize=True)]: distinct non-null values by descending
    frequency, each with its share of the non-null values. *)
Definition value_counts_normalize {K} `{EqDecision K}
    (s : Series (option K)) : list (K * float) :=
  let ks := dropnull s in
  let counts := sort_by (fun a b => Nat.leb b.2 a.2)
                  (map (fun k => (k, count k ks)) (unique ks)) in
  map (fun kc => (kc.1, PrimFloat.div (float_of_Z (Z.of_nat kc.2))
                          (float_of_Z (Z.of_nat (length ks)))))
      counts.

(** [groupby(key)[value].mean()]. *)
Definition groupby_mean {K} `{EqDecision K} (le : K -> K -> bool)
    (keys : Series (option K)) (values : Series float) : list (K * float) :=
  let kv := zip keys values in
  map (fun k =>
         (k, series_mean
               (map snd (List.filter
                           (fun p => bool_decide (p.1 = Some k)) kv))))
      (sort_by le (unique (dropnull keys))).

(** ** The metrics panel (lines 59-65) *)

Definition cell_sub (a b : option Z) : option Z :=
  match a, b with
  | Some u, Some v => Some (u - v)
  | _, _ => None
  end.

(** [.dt.total_seconds()] of a timedelta series. *)
Definition total_seconds (s : Series (option Z)) : Series float :=
  map (fun d => match d with Some x => float_of_Z x | None => nan end) s.

Record Metrics : Type := mkMetrics {
  total_trips : string;
  avg_fare : string;
  total_revenue : string;
  avg_distance : string;
  avg_duration : string
}.

Definition trip_count_value (view : DataFrame Trip) : Z :=
  Z.of_nat (length (rows view)).

Definition avg_fare_value (view : DataFrame Trip) : result float :=
  let* fare := getitem view "fare_amount" fare_amount in
  Ok (series_mean fare).

Definition total_revenue_value (view : DataFrame Trip) : result float :=
  let* total := getitem view "total_amount" total_amount in
  Ok (series_sum total).

Definition avg_distance_value (view : DataFrame Trip) : result float :=
  let* distance := getitem view "trip_distance" trip_distance in
  Ok (series_mean distance).

Definition avg_duration_value (view : DataFrame Trip) : result float :=
  let* dropoff := getitem view "tpep_dropoff_datetime" tpep_dropoff_datetime in
  let* pickup := getitem view "tpep_pickup_datetime" tpep_pickup_datetime in
  let seconds := total_seconds (zip_with cell_sub dropoff pickup) in
  Ok (PrimFloat.div (series_mean seconds) 60).

Definition metric_total_trips (view : DataFrame Trip) : string :=
  format_int (trip_count_value view).

Definition metric_avg_fare (view : DataFrame Trip) : result string :=
  let* v := avg_fare_value view in
  Ok (String.append "$" (format_float false 2 v)).

Definition metric_total_revenue (view : DataFrame Trip) : result string :=
  let* v := total_revenue_value view in
  Ok (String.append "$" (format_float true 0 v)).

Definition metric_avg_distance (view : DataFrame Trip) : result string :=
  let* v := avg_distance_value view in
  Ok (String.append (format_float false 1 v) " mi").

Definition metric_avg_duration (view : DataFrame Trip) : result string :=
  let* v := avg_duration_value view in
  Ok (String.append (format_float false 1 v) " min").

Definition metrics_panel (view : DataFrame Trip) : result Metrics :=
  let trips := metric_total_trips view in
  let* fare := metric_avg_fare view in
  let* revenue := metric_total_revenue view in
  let* distance := metric_avg_distance view in
  let* duration := metric_avg_duration view in
  Ok (mkMetrics trips fare revenue distance duration).

(** ** Chart data (lines 69-97) *)

Record TopZone : Type := mkTopZone {
  top_PULocationID : Z;
  trip_count : nat;
  top_LocationID : Z;
  top_Zone : string
}.

(** [zones_df[['LocationID', 'Zone']]]. *)
Definition zone_names (zones_df : DataFrame ZoneRow)
  : result (list (Z * string)) :=
  match missing_from zones_df ["LocationID"; "Zone"] with
  | c :: cs => Raise (KeyError (c :: cs))
  | [] => Ok (map (fun z => (LocationID z, Zone z)) (rows zones_df))
  end.

(** Inner join on [PULocationID = LocationID], in the order of the left
    rows. *)
Definition merge (left : list (Z * nat)) (right : list (Z * string))
  : list TopZone :=
  flat_map (fun l =>
              map (fun z => mkTopZone l.1 l.2 z.1 z.2)
                  (List.filter (fun z => z.1 =? l.1) right))
           left.

Definition top_zones (view : DataFrame Trip) (zones_df : DataFrame ZoneRow)
  : result (list TopZone) :=
  let* pu := getitem view "PULocationID" PULocationID in
  let top := nlargest 10 (groupby_size Z.leb pu) in
  let* names := zone_names zones_df in
  Ok (merge top names).

Definition payment_counts (view : DataFrame Trip)
  : result (list (option string * float)) :=
  let* payments := getitem view "payment_type" payment_type in
  let shares := value_counts_normalize payments in
  let shares := map (fun kp => (kp.1, PrimFloat.mul kp.2 100)) shares in
  Ok (map (fun kp => (payment_labels !! kp.1, kp.2)) shares).

Definition hourly_fare (view : DataFrame Trip) : result (list (Z * float)) :=
  let* hours := getitem view "pickup_hour" pickup_hour in
  let* fare := getitem view "fare_amount" fare_amount in
  Ok (groupby_mean Z.leb hours fare).

(** The pivoted weekday-by-hour table. *)
Record Grid : Type := mkGrid {
  grid_index : list string;       (* row labels *)
  grid_columns : list Z;          (* column labels *)
  grid_values : list (list nat)   (* one list of cells per row label *)
}.

Definition pair_key (d : option string) (h : option Z)
  : option (string * Z) :=
  match d, h with
  | Some d, Some h => Some (d, h)
  | _, _ => None
  end.

Definition key_le (a b : string * Z) : bool :=
  match String.compare a.1 b.1 with
  | Lt => true
  | Eq => a.2 <=? b.2
  | Gt => false
  end.

Definition lookup_count (k : string * Z) (s : list ((string * Z) * nat))
  : option nat :=
  option_map snd (List.find (fun e => bool_decide (e.1 = k)) s).

(** [unstack(fill_value=...)] of a series indexed by (weekday, hour): the
    row labels are the weekdays of the index, the column labels the hours
    of the index in ascending order. *)
Definition unstack (fill_value : nat) (s : list ((string * Z) * nat)) : Grid :=
  let idx := unique (map (fun e => e.1.1) s) in
  let cols := sort_by Z.leb (unique (map (fun e => e.1.2) s)) in
  mkGrid idx cols
    (map (fun d =>
            map (fun h => default fill_value (lookup_count (d, h) s)) cols)
         idx).

Definition weekly (view : DataFrame Trip) : result Grid :=
  let* days := getitem view "pickup_dayofweek" pickup_dayofweek in
  let* hrs := getitem view "pickup_hour" pickup_hour in
  Ok (unstack 0 (groupby_size key_le (zip_with pair_key days hrs))).

(** ** The page and the script (lines 26-98) *)

(** A column handed to a plotting call by name: an unknown name is a
    [ValueError].  The plotting calls are taken to accept every table that
    has the columns they are given, and the widgets every bound. *)
Definition px_column {R A} (df : DataFrame R) (c : string) (field : R -> A)
  : result (Series A) :=
  if decide (c ∈ columns df) then Ok (map field (rows df))
  else Raise (ValueError c).

Inductive Chart : Type :=
| Bar (title : string) (bars : list (string * nat))
| Pie (title : string) (slices : list (option string * float))
| Line (title : string) (points : list (Z * float))
| Histogram (title : string) (x : list float) (nbins : Z) (xaxis : Z * Z)
| Imshow (title : string) (grid : Grid).

Inductive Element : Type :=
| Title (text : string)
| Markdown (text : string)
| Header (text : string)
| SidebarHeader (text : string)
| DateInput (label : string) (min_value max_value : option Z)
| Slider (label : string) (lo hi : Z)
| Multiselect (label : string) (options : list Z)
| Columns (n : nat)
| Metric (label value : string)
| Tabs (names : list string)
| PlotlyChart (fig : Chart).

(** What the user has set in the three sidebar widgets. *)
Record Inputs : Type := mkInputs {
  date_range : list Z;
  hour_range : Z * Z;
  selected_payments : list Z
}.

(** A script step sees the page rendered so far, may add to it, and either
    yields a value or raises; a raise leaves the page as it is. *)
Definition script (A : Type) : Type := list Element -> list Element * result A.

Definition sbind {A B} (m : script A) (k : A -> script B) : script B :=
  fun page =>
    match m page with
    | (page', Ok a) => k a page'
    | (page', Raise e) => (page', Raise e)
    end.

Definition emit (e : Element) : script unit :=
  fun page => ((page ++ [e])%list, Ok tt).

Definition lift {A} (r : result A) : script A := fun page => (page, r).

Notation "'let!' x ':=' m 'in' k" := (sbind m (fun x => k))
  (at level 10, x pattern, m at level 100, k at level 200) : result_scope.
Notation "m ';;' k" := (sbind m (fun _ => k))
  (at level 100, k at level 200, right associativity) : result_scope.

Definition series_min (s : Series (option Z)) : option Z :=
  match dropnull s with
  | [] => None
  | x :: l => Some (fold_left Z.min l x)
  end.

Definition series_max (s : Series (option Z)) : option Z :=
  match dropnull s with
  | [] => None
  | x :: l => Some (fold_left Z.max l x)
  end.

Definition sidebar (df : DataFrame Trip) : script unit :=
  emit (SidebarHeader "Filters");;
  let! dates := lift (getitem df "pickup_date" pickup_date) in
  emit (DateInput "Date Range" (series_min dates) (series_max dates));;
  emit (Slider "Hour Range (0-23)" 0 23);;
  emit (Multiselect "Payment Types" payment_options).

Definition render_metrics (view : DataFrame Trip) : script unit :=
  emit (Header "Key Summary Metrics");;
  emit (Columns 5);;
  emit (Metric "Total Trips" (metric_total_trips view));;
  let! fare := lift (metric_avg_fare view) in
  emit (Metric "Avg Fare" fare);;
  let! revenue := lift (metric_total_revenue view) in
  emit (Metric "Total Revenue" revenue);;
  let! distance := lift (metric_avg_distance view) in
  emit (Metric "Avg Distance" distance);;
  let! duration := lift (metric_avg_duration view) in
  emit (Metric "Avg Duration" duration).

Definition render_tabs (view : DataFrame Trip) (zones_df : DataFrame ZoneRow)
  : script unit :=
  emit (Tabs ["Zones & Payments"; "Fares & Distances"; "Time Patterns"]);;
  let! zones := lift (top_zones view zones_df) in
  emit (PlotlyChart (Bar "Top 10 Busiest Pickup Zones"
                       (map (fun z => (top_Zone z, trip_count z)) zones)));;
  emit (Markdown "**Insight**: Airport zones and Manhattan locations like Midtown dominate, showing high travel demand from tourists in early 2024.");;
  let! shares := lift (payment_counts view) in
  emit (PlotlyChart (Pie "Payment Type Breakdown" shares));;
  emit (Markdown "**Insight**: Credit cards account for ~75-80% of trips, highlighting the rapid shift to cashless payments in NYC taxis during this period.");;
  let! fares := lift (hourly_fare view) in
  emit (PlotlyChart (Line "Average Fare by Hour of Day" fares));;
  emit (Markdown "**Insight**: t, Fares are highest during early mornings which apparently is normal behaviour for taxi services, likely due to airport trips)");;
  let! distance := lift (px_column view "trip_distance" trip_distance) in
  emit (PlotlyChart (Histogram "Distribution of Trip Distances" distance 50
                       (0, 30)));;
  emit (Markdown "**Insight**: Most trips are short, which is to be expected in a dense urban environment like NYC. However, there is a long tail of longer trips, likely to/from airports or outer boroughs.");;
  let! grid := lift (weekly view) in
  emit (PlotlyChart (Imshow "Trips by Day of Week and Hour" grid));;
  emit (Markdown "**Insight**: Weekdays are structured around work hours 7am and 5pm, while weekends show more activity in the afternoons and evenings, reflecting leisure travel patterns.").

Definition app (src : Sources) (ui : Inputs) : script unit :=
  let! loaded := lift (load_data src) in
  let df := loaded.1 in
  let zones_df := loaded.2 in
  emit (Title "NYC Yellow Taxi Trips Dashboards - January 2024");;
  emit (Markdown "This dashboard analyzes ~3 million yellow taxi trips for January 2024, including pickups, fares, distances, payments and more.");;
  sidebar df;;
  let! view := lift (filtered_df df (date_range ui) (hour_range ui)
                       (selected_payments ui)) in
  render_metrics view;;
  render_tabs view zones_df.

(** The page shown and the outcome of one run of the script. *)
Definition run (src : Sources) (ui : Inputs) : list Element * result unit :=
  app src ui [].

(** ** Sample data *)

(** Days from 1970-01-01 to the given civil date (proleptic Gregorian). *)
Definition days_from_civil (y m d : Z) : Z :=
  let y' := if m <=? 2 then y - 1 else y in
  let era := y' / 400 in
  let yoe := y' - era * 400 in
  let mp := (m + 9) mod 12 in
  let doy := (153 * mp + 2) / 5 + d - 1 in
  let doe := yoe * 365 + yoe / 4 - yoe / 100 + doy in
  era * 146097 + doe - 719468.

Definition timestamp (y m d hh mm : Z) : Z :=
  days_from_civil y m d * 86400 + hh * 3600 + mm * 60.

(** A trip as the trip file holds it: the derived columns are not there. *)
Definition raw_trip (pickup dropoff : Z) (pu do_ payment : Z)
    (fare total distance : float) : Trip :=
  mkTrip (Some pickup) (Some dropoff) (Some pu) (Some do_) (Some payment)
    fare total distance None None None.

Definition trip_columns : list string :=
  ["tpep_pickup_datetime"; "tpep_dropoff_datetime"; "trip_distance";
   "PULocationID"; "DOLocationID"; "payment_type"; "fare_amount";
   "total_amount"].

Definition zone_columns : list string := ["LocationID"; "Borough"; "Zone"].

Definition sample_zones : DataFrame ZoneRow :=
  mkFrame zone_columns
    [mkZone 132 "Queens" "JFK Airport";
     mkZone 161 "Manhattan" "Midtown Center";
     mkZone 237 "Manhattan" "Upper East Side South"].

(** The two trips of the worked scenario; zones and total amounts are left
    to the caller. *)
Definition scenario_trip_1 (pu do_ : Z) (total : float) : Trip :=
  raw_trip (timestamp 2024 1 1 8 0) (timestamp 2024 1 1 8 10) pu do_ 1
    10 total 2.
Definition scenario_trip_2 (pu do_ : Z) (total : float) : Trip :=
  raw_trip (timestamp 2024 1 1 9 0) (timestamp 2024 1 1 9 20) pu do_ 2
    20 total 4.

Definition sample_trips : DataFrame Trip :=
  mkFrame trip_columns
    [scenario_trip_1 132 161 10; scenario_trip_2 161 237 20].

Definition sample_sources : Sources :=
  mkSources (Some sample_trips) (Some sample_zones).

(** A trip file in which one trip carries payment code 0. *)
Definition flex_fare_trips : DataFrame Trip :=
  mkFrame trip_columns
    [scenario_trip_1 132 161 10;
     raw_trip (timestamp 2024 1 3 9 0) (timestamp 2024 1 3 9 20) 161 237 0
       20 21.5 4].

Definition flex_fare_sources : Sources :=
  mkSources (Some flex_fare_trips) (Some sample_zones).

(** A trip file without the [total_amount] column. *)
Definition no_total_trips : DataFrame Trip :=
  mkFrame
    ["tpep_pickup_datetime"; "tpep_dropoff_datetime"; "trip_distance";
     "PULocationID"; "DOLocationID"; "payment_type"; "fare_amount"]
    (rows sample_trips).

Definition no_total_sources : Sources :=
  mkSources (Some no_total_trips) (Some sample_zones).

Definition all_day : Z * Z := (0, 23).

(** ** Vocabulary of the specification *)

(** The rows the cleaning keeps, in the words of the cleaning steps. *)
Definition valid_trip (r : Trip) : bool :=
  negb (isna_cell (tpep_pickup_datetime r))
  && negb (isna_cell (tpep_dropoff_datetime r))
  && negb (isna_cell (PULocationID r))
  && negb (isna_cell (DOLocationID r))
  && negb (isna_float (fare_amount r))
  && PrimFloat.ltb 0 (trip_distance r)
  && PrimFloat.ltb 0 (fare_amount r)
  && PrimFloat.leb (fare_amount r) 500
  && cell_gt (tpep_dropoff_datetime r) (tpep_pickup_datetime r).

(** The calendar fields derived from the pickup time. *)
Definition with_calendar (r : Trip) : Trip :=
  mkTrip (tpep_pickup_datetime r) (tpep_dropoff_datetime r) (PULocationID r)
    (DOLocationID r) (payment_type r) (fare_amount r) (total_amount r)
    (trip_distance r)
    (option_map date_of (tpep_pickup_datetime r))
    (option_map hour_of (tpep_pickup_datetime r))
    (option_map day_name_of (tpep_pickup_datetime r)).

(** What holds of a cleaned row picked up at [p] and dropped off at [d]. *)
Record cleaned_at (p d : Z) (r : Trip) : Prop := mkCleaned {
  pickup_notnull : tpep_pickup_datetime r = Some p;
  dropoff_notnull : tpep_dropoff_datetime r = Some d;
  dropoff_after_pickup : p < d;
  pu_zone_notnull : is_Some (PULocationID r);
  do_zone_notnull : is_Some (DOLocationID r);
  fare_notnull : isna_float (fare_amount r) = false;
  distance_positive : PrimFloat.ltb 0 (trip_distance r) = true;
  fare_positive : PrimFloat.ltb 0 (fare_amount r) = true;
  fare_at_most_500 : PrimFloat.leb (fare_amount r) 500 = true;
  date_derived : pickup_date r = Some (date_of p);
  hour_derived : pickup_hour r = Some (hour_of p);
  dayofweek_derived : pickup_dayofweek r = Some (day_name_of p)
}.

Definition cleaned (r : Trip) : Prop := exists p d, cleaned_at p d r.

(** The selection of the filter contract. *)
Definition in_selection (d0 d1 h0 h1 : Z) (S : list Z) (r : Trip) : Prop :=
  (exists d, pickup_date r = Some d /\ d0 <= d <= d1)
  /\ (exists h, pickup_hour r = Some h /\ h0 <= h <= h1)
  /\ (exists p, payment_type r = Some p /\ p ∈ S).

Definition selects (d0 d1 h0 h1 : Z) (S : list Z) (r : Trip) : bool :=
  cell_between d0 d1 (pickup_date r)
  && cell_between h0 h1 (pickup_hour r)
  && cell_isin S (payment_type r).

(** Number of trips of a view picked up on weekday [d] in hour [h]. *)
Definition trips_at (d : string) (h : Z) (view : DataFrame Trip) : nat :=
  length (List.filter
            (fun r => bool_decide (pickup_dayofweek r = Some d
                                   /\ pickup_hour r = Some h))
            (rows view)).

(** The grouping key of the grid for one trip. *)
Definition weekly_key (r : Trip) : option (string * Z) :=
  pair_key (pickup_dayofweek r) (pickup_hour r).

(** The trip columns whose absence the loader notices. *)
Definition loader_columns : list string :=
  ["tpep_pickup_datetime"; "tpep_dropoff_datetime"; "PULocationID";
   "DOLocationID"; "fare_amount"; "trip_distance"].

(** The scenario with total amounts above the fares (taxes and tips). *)
Definition taxed_trips : DataFrame Trip :=
  mkFrame trip_columns
    [scenario_trip_1 132 161 12.5; scenario_trip_2 161 237 25.5].

Definition taxed_sources : Sources :=
  mkSources (Some taxed_trips) (Some sample_zones).

(** The cleaned tables of the sample sources, as the loader returns them. *)
Definition loaded_or_empty (src : Sources) : DataFrame Trip :=
  match load_data src with
  | Ok (df, _) => df
  | Raise _ => mkFrame [] []
  end.

Definition sample_df : DataFrame Trip :=
  Eval vm_compute in loaded_or_empty sample_sources.
Definition flex_fare_df : DataFrame Trip :=
  Eval vm_compute in loaded_or_empty flex_fare_sources.
Definition no_total_df : DataFrame Trip :=
  Eval vm_compute in loaded_or_empty no_total_sources.
Definition taxed_df : DataFrame Trip :=
  Eval vm_compute in loaded_or_empty taxed_sources.

(** The columns read by the metrics panel. *)
Definition metric_columns : list string :=
  ["fare_amount"; "total_amount"; "trip_distance"; "tpep_dropoff_datetime";
   "tpep_pickup_datetime"].

(** ** Vocabulary of the further properties *)

(** The columns the loader adds. *)
Definition derived_columns : list string :=
  ["pickup_date"; "pickup_hour"; "pickup_dayofweek"].

(** The payment codes two selections have in common. *)
Definition common_payments (S T : list Z) : list Z :=
  List.filter (fun p => existsb (Z.eqb p) T) S.

(** The page once the title and the sidebar are drawn, the date picker
    running from [lo] to [hi]. *)
Definition sidebar_page (lo hi : option Z) : list Element :=
  [Title "NYC Yellow Taxi Trips Dashboards - January 2024";
   Markdown "This dashboard analyzes ~3 million yellow taxi trips for January 2024, including pickups, fares, distances, payments and more.";
   SidebarHeader "Filters";
   DateInput "Date Range" lo hi;
   Slider "Hour Range (0-23)" 0 23;
   Multiselect "Payment Types" payment_options].

(** The elements of the metrics row. *)
Definition metrics_elements (m : Metrics) : list Element :=
  [Header "Key Summary Metrics"; Columns 5;
   Metric "Total Trips" (total_trips m);
   Metric "Avg Fare" (avg_fare m);
   Metric "Total Revenue" (total_revenue m);
   Metric "Avg Distance" (avg_distance m);
   Metric "Avg Duration" (avg_duration m)].

Definition tab_names : list string :=
  ["Zones & Payments"; "Fares & Distances"; "Time Patterns"].

Definition is_chart (e : Element) : bool :=
  match e with PlotlyChart _ => true | _ => false end.

(** The elements of the three tabs, given the data of the five charts. *)
Definition tabs_elements (zones : list TopZone)
    (shares : list (option string * float)) (fares : list (Z * float))
    (distance : list float) (grid : Grid) : list Element :=
  [Tabs tab_names;
   PlotlyChart (Bar "Top 10 Busiest Pickup Zones"
                  (map (fun z => (top_Zone z, trip_count z)) zones));
   Markdown "**Insight**: Airport zones and Manhattan locations like Midtown dominate, showing high travel demand from tourists in early 2024.";
   PlotlyChart (Pie "Payment Type Breakdown" shares);
   Markdown "**Insight**: Credit cards account for ~75-80% of trips, highlighting the rapid shift to cashless payments in NYC taxis during this period.";
   PlotlyChart (Line "Average Fare by Hour of Day" fares);
   Markdown "**Insight**: t, Fares are highest during early mornings which apparently is normal behaviour for taxi services, likely due to airport trips)";
   PlotlyChart (Histogram "Distribution of Trip Distances" distance 50
                  (0, 30));
   Markdown "**Insight**: Most trips are short, which is to be expected in a dense urban environment like NYC. However, there is a long tail of longer trips, likely to/from airports or outer boroughs.";
   PlotlyChart (Imshow "Trips by Day of Week and Hour" grid);
   Markdown "**Insight**: Weekdays are structured around work hours 7am and 5pm, while weekends show more activity in the afternoons and evenings, reflecting leisure travel patterns."].

(** The view of the sample table for a selection that matches no trip. *)
Definition sample_empty_view : DataFrame Trip :=
  mkFrame (columns sample_df) [].


(** The number of trips of a view picked up in zone [k]. *)
Definition pickups_in_zone (k : Z) (view : DataFrame Trip) : nat :=
  count k (dropnull (map PULocationID (rows view))).

(** * Properties *)

(** ** Formatting and calendar arithmetic on examples *)

Example format_float_two_places :
  format_float false 2 15 = "15.00" /\ format_float false 2 nan = "nan"
  /\ format_float false 2 (-0.125) = "-0.12"
  /\ format_float false 2 0.375 = "0.38".
Proof. repeat split; vm_compute; reflexivity. Qed.

Example format_float_grouped :
  format_float true 0 1234567.5 = "1,234,568"
  /\ format_float true 0 2.5 = "2" /\ format_float true 0 0 = "0"
  /\ format_float true 0 999.5 = "1,000".
Proof. repeat split; vm_compute; reflexivity. Qed.

Example format_int_grouped :
  format_int 0 = "0" /\ format_int 999 = "999"
  /\ format_int 2964624 = "2,964,624".
Proof. repeat split; vm_compute; reflexivity. Qed.

Example new_year_2024_is_a_monday :
  days_from_civil 1970 1 1 = 0 /\ days_from_civil 2024 1 1 = 19723
  /\ day_name_of (timestamp 2024 1 1 8 0) = "Monday"
  /\ hour_of (timestamp 2024 1 1 8 0) = 8
  /\ day_name_of 0 = "Thursday".
Proof. repeat split; vm_compute; reflexivity. Qed.

Example sample_page_is_complete :
  exists page,
    run sample_sources (mkInputs [19723; 19723] all_day payment_options)
    = (page, Ok tt)
    /\ length page = 24%nat.
Proof. eexists. split; [vm_compute; reflexivity | reflexivity]. Qed.

(** ** The result monad and series primitives *)

Section Primitives.
Context {R A B : Type}.

Lemma rbind_Ok (m : result A) (k : A -> result B) (b : B) :
  rbind m k = Ok b -> exists a, m = Ok a /\ k a = Ok b.
Proof. destruct m as [a|e]; simpl; [eauto | discriminate]. Qed.

Lemma getitem_Ok (df : DataFrame R) (c : string) (f : R -> A) s :
  getitem df c f = Ok s -> c ∈ columns df /\ s = map f (rows df).
Proof.
  unfold getitem. destruct (decide (c ∈ columns df)); [|discriminate].
  intros [= <-]. auto.
Qed.

Lemma getitem_elem (df : DataFrame R) (c : string) (f : R -> A) :
  c ∈ columns df -> getitem df c f = Ok (map f (rows df)).
Proof.
  intros Hc. unfold getitem. destruct (decide (c ∈ columns df)); tauto.
Qed.

Lemma getitem_missing (df : DataFrame R) (c : string) (f : R -> A) :
  c ∉ columns df -> getitem df c f = Raise (KeyError [c]).
Proof.
  intros Hc. unfold getitem. destruct (decide (c ∈ columns df)); tauto.
Qed.

Lemma boolean_index_map (f : R -> bool) (l : list R) :
  boolean_index l (map f l) = List.filter f l.
Proof.
  induction l as [|r l IH]; simpl; [reflexivity|].
  rewrite IH. reflexivity.
Qed.

Lemma zip_with_map_same {C D} (op : C -> D -> B) (f : R -> C) (g : R -> D)
    (l : list R) :
  zip_with op (map f l) (map g l) = map (fun r => op (f r) (g r)) l.
Proof. induction l; simpl; congruence. Qed.

Lemma setitem_rows (df : DataFrame R) c (store : A -> R -> R) (f : R -> A) :
  rows (setitem df c store (map f (rows df)))
  = map (fun r => store (f r) r) (rows df).
Proof.
  unfold setitem; simpl. induction (rows df); simpl; congruence.
Qed.

Lemma setitem_columns_keep (df : DataFrame R) c (store : A -> R -> R) s x :
  x ∈ columns df -> x ∈ columns (setitem df c store s).
Proof.
  intros Hx. unfold setitem; simpl.
  destruct (decide (c ∈ columns df)); [assumption|].
  apply elem_of_app; auto.
Qed.

Lemma setitem_columns_new (df : DataFrame R) c (store : A -> R -> R) s :
  c ∈ columns (setitem df c store s).
Proof.
  unfold setitem; simpl.
  destruct (decide (c ∈ columns df)); [assumption|].
  apply elem_of_app; right. apply list_elem_of_singleton. reflexivity.
Qed.
End Primitives.

Lemma mask_and_map {R} (f g : R -> bool) (l : list R) :
  map f l & map g l = map (fun r => f r && g r) l.
Proof. apply zip_with_map_same. Qed.

Lemma filter_filter_and {R} (f g : R -> bool) (l : list R) :
  List.filter g (List.filter f l) = List.filter (fun r => f r && g r) l.
Proof.
  induction l as [|r l IH]; simpl; [reflexivity|].
  destruct (f r); simpl; [destruct (g r)|]; congruence.
Qed.

Lemma elem_of_missing_from {R} (df : DataFrame R) names c :
  c ∈ missing_from df names <-> c ∈ names /\ (c ∉ columns df).
Proof.
  unfold missing_from.
  rewrite list_elem_of_In, filter_In, bool_decide_eq_true,
    <- (list_elem_of_In names c).
  reflexivity.
Qed.

Lemma missing_from_nil {R} (df : DataFrame R) names :
  missing_from df names = [] -> Forall (fun c => c ∈ columns df) names.
Proof.
  intros Hnil. apply Forall_forall. intros c Hc.
  destruct (decide (c ∈ columns df)) as [Hin|Hout]; [exact Hin|].
  assert (c ∈ missing_from df names) as Hm
    by (apply elem_of_missing_from; auto).
  rewrite Hnil in Hm. apply elem_of_nil in Hm. contradiction.
Qed.

Lemma dropna_Ok {R} (df df' : DataFrame R) subset :
  dropna df subset = Ok df' ->
  Forall (fun c => c ∈ columns df) (map fst subset)
  /\ columns df' = columns df
  /\ rows df' = List.filter (fun r => negb (existsb (fun c => c.2 r) subset))
                  (rows df).
Proof.
  unfold dropna.
  destruct (missing_from df (map fst subset)) as [|c cs] eqn:Hm;
    [|discriminate].
  intros [= <-]. split; [apply missing_from_nil, Hm | split; reflexivity].
Qed.

Lemma dropna_Raise {R} (df : DataFrame R) subset e :
  dropna df subset = Raise e ->
  exists cs, e = KeyError cs /\ cs <> []
             /\ forall c, c ∈ cs -> c ∈ map fst subset /\ (c ∉ columns df).
Proof.
  unfold dropna.
  destruct (missing_from df (map fst subset)) as [|c cs] eqn:Hm;
    [discriminate|].
  intros [= <-]. exists (c :: cs). split; [reflexivity|].
  split; [discriminate|].
  intros c' Hc'. rewrite <- Hm in Hc'. apply elem_of_missing_from, Hc'.
Qed.

(** ** The data loader *)

Ltac bind_inv H :=
  let a := fresh "a" in
  let Ha := fresh "Hstep" in
  apply rbind_Ok in H as (a & Ha & H).

Lemma valid_trip_masks (r : Trip) :
  negb (existsb (fun c : string * (Trip -> bool) => c.2 r) critical_columns)
  && (PrimFloat.ltb 0 (trip_distance r) && PrimFloat.ltb 0 (fare_amount r)
      && PrimFloat.leb (fare_amount r) 500
      && cell_gt (tpep_dropoff_datetime r) (tpep_pickup_datetime r))
  = valid_trip r.
Proof.
  unfold valid_trip; simpl.
  destruct (isna_cell (tpep_pickup_datetime r)),
    (isna_cell (tpep_dropoff_datetime r)), (isna_cell (PULocationID r)),
    (isna_cell (DOLocationID r)), (isna_float (fare_amount r)),
    (PrimFloat.ltb 0 (trip_distance r)), (PrimFloat.ltb 0 (fare_amount r)),
    (PrimFloat.leb (fare_amount r) 500),
    (cell_gt (tpep_dropoff_datetime r) (tpep_pickup_datetime r));
    reflexivity.
Qed.

(** The loader either raises or returns the zone table as read and the
    valid trips, in file order, each with its calendar fields. *)
Lemma load_data_Ok (src : Sources) df zones :
  load_data src = Ok (df, zones) ->
  exists raw,
    parquet src = Some raw /\ csv src = Some zones
    /\ Forall (fun c => c ∈ columns raw) loader_columns
    /\ (forall c, c ∈ columns raw -> c ∈ columns df)
    /\ "pickup_date" ∈ columns df /\ "pickup_hour" ∈ columns df
    /\ "pickup_dayofweek" ∈ columns df
    /\ rows df = map with_calendar (List.filter valid_trip (rows raw)).
Proof.
  unfold load_data, read_parquet, read_csv. intros H.
  destruct (parquet src) as [raw|] eqn:Hp; [|discriminate].
  destruct (csv src) as [z|] eqn:Hz; [|discriminate].
  simpl in H.
  bind_inv H. apply dropna_Ok in Hstep as (Hcrit & Hcols & Hrows).
  do 5 (let H' := fresh "Hg" in bind_inv H; apply getitem_Ok in Hstep as [H' ->]).
  rewrite Hcols in *.
  set (mask := _ & _ & _ & _) in H.
  assert (Hmask : boolean_index (rows a) mask
                  = List.filter valid_trip (rows raw)).
  { subst mask. unfold float_gt, float_le, datetime_gt.
    rewrite !List.map_map, (zip_with_map_same cell_gt), !mask_and_map,
      boolean_index_map.
    rewrite Hrows, filter_filter_and.
    apply filter_ext. intros r. apply valid_trip_masks. }
  do 4 (bind_inv H; apply getitem_Ok in Hstep as [_ ->]).
  injection H as <- <-.
  exists raw. repeat split; auto.
  - simpl in Hcrit. rewrite !Forall_cons in Hcrit.
    destruct Hcrit as (? & ? & ? & ? & ? & _).
    unfold loader_columns. repeat constructor; assumption.
  - intros c Hc. do 4 apply setitem_columns_keep.
    unfold df_mask; simpl. congruence.
  - do 2 apply setitem_columns_keep. apply setitem_columns_new.
  - apply setitem_columns_keep. apply setitem_columns_new.
  - apply setitem_columns_new.
  - rewrite <- Hmask. unfold to_datetime, dt_date, dt_hour, dt_day_name.
    simpl. generalize (boolean_index (rows a) mask) as l.
    induction l as [|r l IH]; simpl; [reflexivity|].
    rewrite IH. destruct r; reflexivity.
Qed.

Lemma valid_trip_cleaned (r : Trip) :
  valid_trip r = true -> cleaned (with_calendar r).
Proof.
  unfold valid_trip. rewrite !andb_true_iff, !negb_true_iff.
  intros ((((((((Hp & Hd) & Hpu) & Hdo) & Hna) & Hdist) & Hpos) & Hle) & Hgt).
  destruct r as [[p|] [d|] [pu|] [do_|] pay fare tot dist dt hr dw];
    simpl in *; try discriminate.
  exists p, d. constructor; simpl; eauto.
  apply Z.ltb_lt. exact Hgt.
Qed.

Lemma load_data_cleaned (src : Sources) df zones :
  load_data src = Ok (df, zones) -> Forall cleaned (rows df).
Proof.
  intros H. apply load_data_Ok in H as (raw & _ & _ & _ & _ & _ & _ & _ & ->).
  apply Forall_forall. intros r Hr.
  apply list_elem_of_In, in_map_iff in Hr as (r0 & <- & Hr0).
  apply filter_In in Hr0 as [_ Hv].
  apply valid_trip_cleaned, Hv.
Qed.

Lemma sample_loaded :
  load_data sample_sources = Ok (sample_df, sample_zones).
Proof. vm_compute. reflexivity. Qed.

Lemma flex_fare_loaded :
  load_data flex_fare_sources = Ok (flex_fare_df, sample_zones).
Proof. vm_compute. reflexivity. Qed.

Lemma no_total_loaded :
  load_data no_total_sources = Ok (no_total_df, sample_zones).
Proof. vm_compute. reflexivity. Qed.

(** C4. Every row of the table returned by the loader has a dropoff time
    strictly after its pickup time, a trip distance strictly above 0, a fare
    strictly above 0 and at most 500, and no null in pickup time, dropoff
    time, pickup zone, dropoff zone or fare. *)
Theorem cleaning_invariants (src : Sources) df zones :
  load_data src = Ok (df, zones) ->
  Forall (fun r =>
            exists pickup dropoff,
              tpep_pickup_datetime r = Some pickup
              /\ tpep_dropoff_datetime r = Some dropoff
              /\ pickup < dropoff
              /\ PrimFloat.ltb 0 (trip_distance r) = true
              /\ PrimFloat.ltb 0 (fare_amount r) = true
              /\ PrimFloat.leb (fare_amount r) 500 = true
              /\ is_Some (PULocationID r)
              /\ is_Some (DOLocationID r)
              /\ isna_float (fare_amount r) = false)
         (rows df).
Proof.
  intros H. apply load_data_cleaned in H.
  eapply Forall_impl; [exact H|].
  intros r (p & d & []). exists p, d. repeat split; assumption.
Qed.

Lemma cleaning_invariants_witness :
  Forall (fun r =>
            exists pickup dropoff,
              tpep_pickup_datetime r = Some pickup
              /\ tpep_dropoff_datetime r = Some dropoff
              /\ pickup < dropoff
              /\ PrimFloat.ltb 0 (trip_distance r) = true
              /\ PrimFloat.ltb 0 (fare_amount r) = true
              /\ PrimFloat.leb (fare_amount r) 500 = true
              /\ is_Some (PULocationID r)
              /\ is_Some (DOLocationID r)
              /\ isna_float (fare_amount r) = false)
         (rows sample_df).
Proof.
  apply (cleaning_invariants sample_sources sample_df sample_zones).
  vm_compute. reflexivity.
Defined.

(** ** The filter engine *)

Lemma selects_iff d0 d1 h0 h1 S (r : Trip) :
  selects d0 d1 h0 h1 S r = true <-> in_selection d0 d1 h0 h1 S r.
Proof.
  unfold selects, in_selection, cell_between, cell_isin.
  rewrite !andb_true_iff.
  destruct (pickup_date r) as [d|], (pickup_hour r) as [h|],
    (payment_type r) as [p|]; split;
    try (intros [[? ?] ?]; discriminate);
    try (intros ([? [? _]] & [? [? _]] & [? [? _]]); discriminate).
  - rewrite !andb_true_iff, !Z.leb_le, existsb_exists.
    intros [[Hd Hh] (x & Hx & Heq)]. apply Z.eqb_eq in Heq. subst x.
    repeat split; eexists; (split; [reflexivity|]); auto.
    apply list_elem_of_In, Hx.
  - intros ((d' & [= <-] & Hd) & (h' & [= <-] & Hh) & (p' & [= <-] & Hp)).
    rewrite !andb_true_iff, !Z.leb_le, existsb_exists.
    repeat split; try lia.
    exists p. split; [apply list_elem_of_In, Hp | apply Z.eqb_refl].
Qed.

Lemma filtered_df_rows (df : DataFrame Trip) d0 d1 hr S :
  boolean_index (rows df)
    (between (map pickup_date (rows df)) d0 d1
     & between (map pickup_hour (rows df)) hr.1 hr.2
     & isin (map payment_type (rows df)) S)
  = List.filter (selects d0 d1 hr.1 hr.2 S) (rows df).
Proof.
  unfold between, isin.
  rewrite !List.map_map, !mask_and_map, boolean_index_map. reflexivity.
Qed.

(** A run of the filter that returns has read both ends of the date range
    and kept, in order, the rows the three masks agree on. *)
Lemma filtered_df_Ok (df view : DataFrame Trip) dr hr S :
  filtered_df df dr hr S = Ok view ->
  exists d0 d1,
    dr !! 0%nat = Some d0 /\ dr !! 1%nat = Some d1
    /\ "payment_type" ∈ columns df
    /\ view = mkFrame (columns df)
                (List.filter (selects d0 d1 hr.1 hr.2 S) (rows df)).
Proof.
  unfold filtered_df, subscript. intros H.
  bind_inv H. apply getitem_Ok in Hstep as [_ ->].
  destruct (dr !! 0%nat) as [d0|]; [|discriminate].
  destruct (dr !! 1%nat) as [d1|]; [|discriminate].
  simpl in H.
  bind_inv H. apply getitem_Ok in Hstep as [_ ->].
  bind_inv H. apply getitem_Ok in Hstep as [Hpay ->].
  injection H as <-.
  exists d0, d1. repeat split; auto.
  unfold df_mask. rewrite filtered_df_rows. reflexivity.
Qed.

Lemma filtered_df_run (df : DataFrame Trip) d0 d1 hr S :
  "pickup_date" ∈ columns df -> "pickup_hour" ∈ columns df ->
  "payment_type" ∈ columns df ->
  filtered_df df [d0; d1] hr S
  = Ok (mkFrame (columns df)
          (List.filter (selects d0 d1 hr.1 hr.2 S) (rows df))).
Proof.
  intros Hd Hh Hp. unfold filtered_df.
  rewrite (getitem_elem _ _ _ Hd), (getitem_elem _ _ _ Hh),
    (getitem_elem _ _ _ Hp).
  simpl. unfold df_mask. rewrite filtered_df_rows. reflexivity.
Qed.

(** C1. On a cleaned trip table the filter returns exactly the rows whose
    pickup date lies in [d0,d1], whose pickup hour lies in [h0,h1] and whose
    payment type is one of the selected codes: the same rows, in the same
    order, and no others. *)
Theorem filter_engine_exact (src : Sources) df zones d0 d1 h0 h1 S :
  load_data src = Ok (df, zones) ->
  "payment_type" ∈ columns df ->
  exists view,
    filtered_df df [d0; d1] (h0, h1) S = Ok view
    /\ columns view = columns df
    /\ rows view = List.filter (selects d0 d1 h0 h1 S) (rows df)
    /\ (forall r, selects d0 d1 h0 h1 S r = true
                  <-> in_selection d0 d1 h0 h1 S r)
    /\ (forall r, r ∈ rows view
                  <-> r ∈ rows df /\ in_selection d0 d1 h0 h1 S r).
Proof.
  intros Hload Hpay.
  apply load_data_Ok in Hload as (raw & _ & _ & _ & _ & Hd & Hh & _ & _).
  eexists. split; [apply filtered_df_run; assumption|].
  simpl. split; [reflexivity|]. split; [reflexivity|].
  split; [intros r; apply selects_iff|].
  intros r. rewrite !list_elem_of_In, filter_In, selects_iff. reflexivity.
Qed.

Lemma filter_engine_exact_witness :
  exists view,
    filtered_df sample_df [19723; 19723] (9, 23) [1; 2] = Ok view
    /\ columns view = columns sample_df
    /\ rows view = List.filter (selects 19723 19723 9 23 [1; 2])
                     (rows sample_df)
    /\ (forall r, selects 19723 19723 9 23 [1; 2] r = true
                  <-> in_selection 19723 19723 9 23 [1; 2] r)
    /\ (forall r, r ∈ rows view
                  <-> r ∈ rows sample_df
                      /\ in_selection 19723 19723 9 23 [1; 2] r).
Proof.
  apply (filter_engine_exact sample_sources sample_df sample_zones).
  - vm_compute. reflexivity.
  - vm_compute. repeat constructor.
Defined.

(** C7. On a cleaned trip table, an empty payment selection, a date range
    with [d1 < d0] and an hour range with [h1 < h0] each make the filter
    return a view without rows; none of them raises. *)
Theorem empty_selection_empty_view (src : Sources) df zones d0 d1 h0 h1 S :
  load_data src = Ok (df, zones) ->
  "payment_type" ∈ columns df ->
  S = [] \/ d1 < d0 \/ h1 < h0 ->
  exists view,
    filtered_df df [d0; d1] (h0, h1) S = Ok view /\ rows view = [].
Proof.
  intros Hload Hpay Hsel.
  apply load_data_Ok in Hload as (raw & _ & _ & _ & _ & Hd & Hh & _ & _).
  eexists. split; [apply filtered_df_run; assumption|].
  simpl. induction (rows df) as [|r l IH]; simpl; [reflexivity|].
  rewrite IH. clear IH.
  assert (selects d0 d1 h0 h1 S r = false) as ->; [|reflexivity].
  apply not_true_iff_false. rewrite selects_iff.
  intros ((d & _ & Hd') & (h & _ & Hh') & (p & _ & Hp')).
  destruct Hsel as [-> | [Hlt | Hlt]]; [|lia|lia].
  apply elem_of_nil in Hp'. exact Hp'.
Qed.

Lemma empty_selection_empty_view_witness :
  exists view,
    filtered_df sample_df [19723; 19724] (0, 23) [] = Ok view
    /\ rows view = [].
Proof.
  apply (empty_selection_empty_view sample_sources sample_df sample_zones).
  - vm_compute. reflexivity.
  - vm_compute. repeat constructor.
  - left. reflexivity.
Defined.

Lemma hour_of_range (t : Z) : 0 <= hour_of t <= 23.
Proof.
  unfold hour_of.
  pose proof (Z.mod_pos_bound t 86400 ltac:(lia)) as Hm.
  split; [apply Z.div_pos; lia|].
  apply Z.lt_succ_r, Z.div_lt_upper_bound; lia.
Qed.

Lemma fold_min_le (l : list Z) (x : Z) :
  fold_left Z.min l x <= x /\ Forall (fun y => fold_left Z.min l x <= y) l.
Proof.
  revert x. induction l as [|y l IH]; intros x; simpl.
  - split; [lia | constructor].
  - destruct (IH (Z.min x y)) as [Hx Hl]. split; [lia|].
    constructor; [lia | exact Hl].
Qed.

Lemma fold_max_ge (l : list Z) (x : Z) :
  x <= fold_left Z.max l x /\ Forall (fun y => y <= fold_left Z.max l x) l.
Proof.
  revert x. induction l as [|y l IH]; intros x; simpl.
  - split; [lia | constructor].
  - destruct (IH (Z.max x y)) as [Hx Hl]. split; [lia|].
    constructor; [lia | exact Hl].
Qed.

Lemma elem_of_dropnull {K} (s : Series (option K)) (x : K) :
  x ∈ dropnull s <-> Some x ∈ s.
Proof.
  unfold dropnull. rewrite list_elem_of_omap. split.
  - intros (o & Ho & Heq). simpl in Heq. subst o. exact Ho.
  - intros Hx. exists (Some x). auto.
Qed.

Lemma series_min_le (s : Series (option Z)) (m x : Z) :
  series_min s = Some m -> Some x ∈ s -> m <= x.
Proof.
  unfold series_min. intros Hm Hx. apply elem_of_dropnull in Hx.
  destruct (dropnull s) as [|y l]; [discriminate|].
  injection Hm as <-. destruct (fold_min_le l y) as [Hy Hl].
  apply elem_of_cons in Hx as [->|Hx]; [exact Hy|].
  rewrite Forall_forall in Hl. apply Hl, Hx.
Qed.

Lemma series_max_ge (s : Series (option Z)) (m x : Z) :
  series_max s = Some m -> Some x ∈ s -> x <= m.
Proof.
  unfold series_max. intros Hm Hx. apply elem_of_dropnull in Hx.
  destruct (dropnull s) as [|y l]; [discriminate|].
  injection Hm as <-. destruct (fold_max_ge l y) as [Hy Hl].
  apply elem_of_cons in Hx as [->|Hx]; [exact Hy|].
  rewrite Forall_forall in Hl. apply Hl, Hx.
Qed.

Lemma filter_all {A} (f : A -> bool) (l : list A) :
  Forall (fun x => f x = true) l -> List.filter f l = l.
Proof.
  induction 1 as [|x l Hx _ IH]; simpl; [reflexivity|].
  rewrite Hx, IH. reflexivity.
Qed.

(** C2, as the code has it.  With the date range running from the earliest
    to the latest pickup date, the hour range [0,23] and all five payment
    codes selected, the filter returns the cleaned table unchanged, provided
    every row of the table carries one of the codes 1 to 5. *)
Theorem full_selection_identity (src : Sources) df zones dates d0 d1 :
  load_data src = Ok (df, zones) ->
  "payment_type" ∈ columns df ->
  getitem df "pickup_date" pickup_date = Ok dates ->
  series_min dates = Some d0 ->
  series_max dates = Some d1 ->
  Forall (fun r => exists p, payment_type r = Some p /\ 1 <= p <= 5)
    (rows df) ->
  filtered_df df [d0; d1] all_day payment_options = Ok df.
Proof.
  intros Hload Hpay Hdates Hmin Hmax Hcodes.
  pose proof (load_data_cleaned _ _ _ Hload) as Hclean.
  apply load_data_Ok in Hload as (raw & _ & _ & _ & _ & Hd & Hh & _ & _).
  apply getitem_Ok in Hdates as [_ ->].
  rewrite filtered_df_run by assumption.
  rewrite filter_all; [destruct df; reflexivity|].
  rewrite Forall_forall in Hclean, Hcodes. apply Forall_forall.
  intros r Hr. apply selects_iff.
  destruct (Hclean r Hr) as (p & d & Hc), (Hcodes r Hr) as (c & Hc1 & Hc2).
  assert (Some (date_of p) ∈ map pickup_date (rows df)) as Hin.
  { rewrite <- (date_derived _ _ _ Hc).
    apply list_elem_of_In, in_map, list_elem_of_In, Hr. }
  repeat split.
  - exists (date_of p). split; [apply (date_derived _ _ _ Hc)|].
    split; [eapply series_min_le | eapply series_max_ge]; eassumption.
  - exists (hour_of p). split; [apply (hour_derived _ _ _ Hc)|].
    apply hour_of_range.
  - exists c. split; [exact Hc1|].
    unfold payment_options.
    assert (c = 1 \/ c = 2 \/ c = 3 \/ c = 4 \/ c = 5) as Hcase by lia.
    destruct Hcase as [->|[->|[->|[->| ->]]]]; repeat constructor.
Qed.

Lemma full_selection_identity_witness :
  filtered_df sample_df [19723; 19723] all_day payment_options = Ok sample_df.
Proof.
  apply (full_selection_identity sample_sources sample_df sample_zones
           (map pickup_date (rows sample_df))).
  - vm_compute. reflexivity.
  - vm_compute. repeat constructor.
  - vm_compute. reflexivity.
  - vm_compute. reflexivity.
  - vm_compute. reflexivity.
  - repeat constructor; eexists; (split; [reflexivity | lia]).
Defined.

(** C2, as stated, fails: a valid trip with payment code 0 survives the
    cleaning and is dropped by the full selection. *)
Lemma full_selection_drops_code_0 :
  load_data flex_fare_sources = Ok (flex_fare_df, sample_zones)
  /\ series_min (map pickup_date (rows flex_fare_df)) = Some 19723
  /\ series_max (map pickup_date (rows flex_fare_df)) = Some 19725
  /\ length (rows flex_fare_df) = 2%nat
  /\ exists view,
       filtered_df flex_fare_df [19723; 19725] all_day payment_options
       = Ok view
       /\ length (rows view) = 1%nat
       /\ view <> flex_fare_df.
Proof.
  split; [vm_compute; reflexivity|].
  split; [vm_compute; reflexivity|].
  split; [vm_compute; reflexivity|].
  split; [reflexivity|].
  eexists. split; [vm_compute; reflexivity|].
  split; [reflexivity|].
  intros Heq. apply (f_equal (fun d => length (rows d))) in Heq.
  simpl in Heq. discriminate.
Qed.

(** ** The metrics panel *)

(** A filtered view has the columns of the cleaned table, among them the
    ones the loader reads, and its rows are cleaned rows of that table. *)
Lemma filtered_view (src : Sources) df zones dr hr S view :
  load_data src = Ok (df, zones) ->
  filtered_df df dr hr S = Ok view ->
  columns view = columns df
  /\ Forall (fun c => c ∈ columns view) loader_columns
  /\ "pickup_hour" ∈ columns view /\ "pickup_dayofweek" ∈ columns view
  /\ "payment_type" ∈ columns view
  /\ Forall cleaned (rows view)
  /\ (forall r, r ∈ rows view -> r ∈ rows df).
Proof.
  intros Hload Hview.
  pose proof (load_data_cleaned _ _ _ Hload) as Hclean.
  apply load_data_Ok in Hload as (raw & _ & _ & Hcols & Hsub & _ & Hh & Hw & _).
  apply filtered_df_Ok in Hview as (d0 & d1 & _ & _ & Hpay & ->). simpl.
  repeat split; auto.
  - eapply Forall_impl; [exact Hcols | auto].
  - rewrite Forall_forall in *. intros r Hr. apply Hclean.
    apply list_elem_of_In, filter_In in Hr. apply list_elem_of_In, Hr.
  - intros r Hr. apply list_elem_of_In, filter_In in Hr.
    apply list_elem_of_In, Hr.
Qed.

Lemma metric_columns_of_view (src : Sources) df zones dr hr S view :
  load_data src = Ok (df, zones) ->
  "total_amount" ∈ columns df ->
  filtered_df df dr hr S = Ok view ->
  Forall (fun c => c ∈ columns view) metric_columns.
Proof.
  intros Hload Htot Hview.
  destruct (filtered_view _ _ _ _ _ _ _ Hload Hview) as (Heq & Hcols & _).
  unfold loader_columns in Hcols. rewrite !Forall_cons in Hcols.
  destruct Hcols as (? & ? & ? & ? & ? & ? & _).
  unfold metric_columns. rewrite Heq in *. repeat constructor; assumption.
Qed.

Lemma metrics_panel_run (view : DataFrame Trip) :
  Forall (fun c => c ∈ columns view) metric_columns ->
  metrics_panel view
  = Ok (mkMetrics
          (format_int (Z.of_nat (length (rows view))))
          (String.append "$"
             (format_float false 2
                (series_mean (map fare_amount (rows view)))))
          (String.append "$"
             (format_float true 0
                (series_sum (map total_amount (rows view)))))
          (String.append
             (format_float false 1
                (series_mean (map trip_distance (rows view))))
             " mi")
          (String.append
             (format_float false 1
                (PrimFloat.div
                   (series_mean
                      (total_seconds
                         (zip_with cell_sub
                            (map tpep_dropoff_datetime (rows view))
                            (map tpep_pickup_datetime (rows view)))))
                   60))
             " min")).
Proof.
  unfold metric_columns. rewrite !Forall_cons.
  intros (Hf & Ht & Hd & Hdo & Hpu & _).
  unfold metrics_panel, metric_avg_fare, metric_total_revenue,
    metric_avg_distance, metric_avg_duration, metric_total_trips,
    avg_fare_value, total_revenue_value, avg_distance_value,
    avg_duration_value, trip_count_value.
  rewrite (getitem_elem _ _ _ Hf), (getitem_elem _ _ _ Ht),
    (getitem_elem _ _ _ Hd), (getitem_elem _ _ _ Hdo),
    (getitem_elem _ _ _ Hpu).
  reflexivity.
Qed.

(** The script renders the computed metrics one after the other. *)
Lemma render_metrics_panel (view : DataFrame Trip) (m : Metrics) page :
  metrics_panel view = Ok m ->
  render_metrics view page
  = ((page ++ [Header "Key Summary Metrics"; Columns 5;
               Metric "Total Trips" (total_trips m);
               Metric "Avg Fare" (avg_fare m);
               Metric "Total Revenue" (total_revenue m);
               Metric "Avg Distance" (avg_distance m);
               Metric "Avg Duration" (avg_duration m)])%list,
     Ok tt).
Proof.
  unfold metrics_panel, render_metrics, sbind, emit, lift.
  destruct (metric_avg_fare view) as [fare|]; [|discriminate].
  destruct (metric_total_revenue view) as [revenue|]; [|discriminate].
  destruct (metric_avg_distance view) as [distance|]; [|discriminate].
  destruct (metric_avg_duration view) as [duration|]; [|discriminate].
  intros [= <-]. simpl. rewrite <- !app_assoc. reflexivity.
Qed.

(** C6. On an empty filtered view the metrics panel reports a trip count
    of 0 and computes and renders all five metrics without raising. *)
Theorem empty_view_metrics_do_not_raise
    (src : Sources) df zones dr hr S view :
  load_data src = Ok (df, zones) ->
  "total_amount" ∈ columns df ->
  filtered_df df dr hr S = Ok view ->
  rows view = [] ->
  trip_count_value view = 0
  /\ exists m,
       metrics_panel view = Ok m /\ total_trips m = "0"
       /\ forall page, (render_metrics view page).2 = Ok tt.
Proof.
  intros Hload Htot Hview Hrows.
  pose proof (metric_columns_of_view _ _ _ _ _ _ _ Hload Htot Hview) as Hc.
  pose proof (metrics_panel_run _ Hc) as Hm.
  unfold trip_count_value. rewrite Hrows in *.
  split; [reflexivity|]. eexists. split; [exact Hm|].
  split; [reflexivity|].
  intros page. rewrite (render_metrics_panel _ _ page Hm). reflexivity.
Qed.

Lemma empty_view_metrics_do_not_raise_witness :
  trip_count_value (mkFrame (columns sample_df) []) = 0
  /\ exists m,
       metrics_panel (mkFrame (columns sample_df) []) = Ok m
       /\ total_trips m = "0"
       /\ forall page,
            (render_metrics (mkFrame (columns sample_df) []) page).2 = Ok tt.
Proof.
  apply (empty_view_metrics_do_not_raise sample_sources sample_df
           sample_zones [19723; 19723] all_day []).
  - vm_compute. reflexivity.
  - vm_compute. repeat constructor.
  - vm_compute. reflexivity.
  - reflexivity.
Defined.

(** C10. On an empty filtered view Total Trips is 0 and Total Revenue is 0
    (the sum of no value), while Avg Fare, Avg Distance and Avg Duration are
    NaN (the mean of no value), and the panel shows them as such. *)
Theorem empty_view_metric_values (src : Sources) df zones dr hr S view :
  load_data src = Ok (df, zones) ->
  "total_amount" ∈ columns df ->
  filtered_df df dr hr S = Ok view ->
  rows view = [] ->
  trip_count_value view = 0
  /\ total_revenue_value view = Ok 0%float
  /\ avg_fare_value view = Ok nan
  /\ avg_distance_value view = Ok nan
  /\ avg_duration_value view = Ok nan
  /\ metrics_panel view = Ok (mkMetrics "0" "$nan" "$0" "nan mi" "nan min").
Proof.
  intros Hload Htot Hview Hrows.
  pose proof (metric_columns_of_view _ _ _ _ _ _ _ Hload Htot Hview) as Hc.
  rewrite (metrics_panel_run _ Hc).
  unfold metric_columns in Hc. rewrite !Forall_cons in Hc.
  destruct Hc as (Hf & Ht & Hd & Hdo & Hpu & _).
  unfold avg_fare_value, total_revenue_value, avg_distance_value,
    avg_duration_value, trip_count_value.
  rewrite (getitem_elem _ _ _ Hf), (getitem_elem _ _ _ Ht),
    (getitem_elem _ _ _ Hd), (getitem_elem _ _ _ Hdo),
    (getitem_elem _ _ _ Hpu), Hrows.
  repeat split; vm_compute; reflexivity.
Qed.

Lemma empty_view_metric_values_witness :
  let view := mkFrame (columns sample_df) [] in
  trip_count_value view = 0
  /\ total_revenue_value view = Ok 0%float
  /\ avg_fare_value view = Ok nan
  /\ avg_distance_value view = Ok nan
  /\ avg_duration_value view = Ok nan
  /\ metrics_panel view = Ok (mkMetrics "0" "$nan" "$0" "nan mi" "nan min").
Proof.
  apply (empty_view_metric_values sample_sources sample_df sample_zones
           [19723; 19723] all_day []).
  - vm_compute. reflexivity.
  - vm_compute. repeat constructor.
  - vm_compute. reflexivity.
  - reflexivity.
Defined.

(** C9, as the code has it.  For the view of exactly the two scenario trips
    whose total amounts are 10 and 20, the panel shows 2 trips, an average
    fare of $15.00, a total revenue of $30, an average distance of 3.0 mi
    and an average duration of 15.0 min, and the payment breakdown is
    Credit card 50 %, Cash 50 %.  Total Revenue adds up [total_amount], not
    the fares. *)
Theorem scenario_metrics (view : DataFrame Trip) (pu1 do1 pu2 do2 : Z) :
  Forall (fun c => c ∈ columns view) metric_columns ->
  "payment_type" ∈ columns view ->
  rows view = [with_calendar (scenario_trip_1 pu1 do1 10);
               with_calendar (scenario_trip_2 pu2 do2 20)] ->
  metrics_panel view
  = Ok (mkMetrics "2" "$15.00" "$30" "3.0 mi" "15.0 min")
  /\ payment_counts view
     = Ok [(Some "Credit card", 50%float); (Some "Cash", 50%float)].
Proof.
  intros Hc Hpay Hrows. split.
  - rewrite (metrics_panel_run _ Hc), Hrows. vm_compute. reflexivity.
  - unfold payment_counts.
    rewrite (getitem_elem _ _ _ Hpay), Hrows. vm_compute. reflexivity.
Qed.

Lemma scenario_metrics_witness :
  metrics_panel sample_df
  = Ok (mkMetrics "2" "$15.00" "$30" "3.0 mi" "15.0 min")
  /\ payment_counts sample_df
     = Ok [(Some "Credit card", 50%float); (Some "Cash", 50%float)].
Proof.
  apply (scenario_metrics sample_df 132 161 161 237).
  - vm_compute. repeat constructor.
  - vm_compute. repeat constructor.
  - vm_compute. reflexivity.
Defined.

(** C9, as stated, fails: the scenario fixes the fares but not the total
    amounts, and with totals of 12.50 and 25.50 the same two trips show a
    total revenue of $38. *)
Lemma scenario_revenue_is_not_fare_sum :
  load_data taxed_sources = Ok (taxed_df, sample_zones)
  /\ exists view,
       filtered_df taxed_df [19723; 19723] all_day payment_options = Ok view
       /\ map payment_type (rows view) = [Some 1; Some 2]
       /\ map fare_amount (rows view) = [10%float; 20%float]
       /\ map trip_distance (rows view) = [2%float; 4%float]
       /\ map tpep_pickup_datetime (rows view)
          = [Some (timestamp 2024 1 1 8 0); Some (timestamp 2024 1 1 9 0)]
       /\ map tpep_dropoff_datetime (rows view)
          = [Some (timestamp 2024 1 1 8 10); Some (timestamp 2024 1 1 9 20)]
       /\ metrics_panel view
          = Ok (mkMetrics "2" "$15.00" "$38" "3.0 mi" "15.0 min")
       /\ metrics_panel view
          <> Ok (mkMetrics "2" "$15.00" "$30" "3.0 mi" "15.0 min").
Proof.
  split; [vm_compute; reflexivity|].
  eexists. split; [vm_compute; reflexivity|].
  repeat (split; [vm_compute; reflexivity|]).
  vm_compute. discriminate.
Qed.

(** ** Failures of the loader *)

Lemma load_data_missing_column (src : Sources) raw z c :
  parquet src = Some raw -> csv src = Some z ->
  c ∈ loader_columns -> c ∉ columns raw ->
  exists cs, load_data src = Raise (KeyError cs) /\ cs <> []
             /\ forall c', c' ∈ cs -> c' ∈ loader_columns
                                     /\ (c' ∉ columns raw).
Proof.
  intros Hp Hz Hc Hmiss. unfold load_data, read_parquet, read_csv.
  rewrite Hp, Hz. simpl.
  destruct (dropna raw critical_columns) as [a|e] eqn:Hdrop; simpl.
  - apply dropna_Ok in Hdrop as (Hcrit & Hcols & _).
    simpl in Hcrit. rewrite !Forall_cons in Hcrit.
    destruct Hcrit as (? & ? & ? & ? & ? & _).
    assert (c = "trip_distance") as ->.
    { unfold loader_columns in Hc.
      repeat (apply elem_of_cons in Hc as [->|Hc];
              [exfalso; apply Hmiss; assumption|]).
      apply elem_of_cons in Hc as [->|Hc]; [reflexivity|].
      apply elem_of_nil in Hc. contradiction. }
    exists ["trip_distance"].
    rewrite getitem_missing by (rewrite Hcols; auto).
    split; [reflexivity|]. split; [discriminate|].
    intros c' Hc'. apply list_elem_of_singleton in Hc' as ->. auto.
  - apply dropna_Raise in Hdrop as (cs & -> & Hne & Hcs).
    exists cs. split; [reflexivity|]. split; [exact Hne|].
    intros c' Hc'. destruct (Hcs c' Hc') as [Hin Hout]. split; [|exact Hout].
    simpl in Hin. unfold loader_columns.
    repeat (apply elem_of_cons in Hin as [->|Hin]; [repeat constructor|]).
    apply elem_of_nil in Hin. contradiction.
Qed.

(** A raise of the loader ends the run with nothing on the page. *)
Lemma load_failure_blank_page (src : Sources) (ui : Inputs) e :
  load_data src = Raise e -> run src ui = ([], Raise e).
Proof.
  intros H. unfold run, app, sbind, lift. rewrite H. reflexivity.
Qed.

(** C5, as the code has it.  The loader raises an [OSError] naming the
    source when the trip file or the zone file cannot be read, and a
    [KeyError] naming the missing columns when one of the six trip columns
    it reads is absent; in each case the run stops there, with nothing put
    on the page. *)
Theorem loader_failure_is_fatal (src : Sources) (ui : Inputs) :
  parquet src = None \/ csv src = None
  \/ (exists raw c, parquet src = Some raw /\ c ∈ loader_columns
                    /\ (c ∉ columns raw)) ->
  exists e,
    load_data src = Raise e
    /\ run src ui = ([], Raise e)
    /\ match e with
       | OSError path =>
           (path = trip_path /\ parquet src = None)
           \/ (path = zone_path /\ csv src = None)
       | KeyError cs =>
           cs <> []
           /\ exists raw,
                parquet src = Some raw
                /\ forall c, c ∈ cs -> c ∈ loader_columns
                                       /\ (c ∉ columns raw)
       | IndexError | ValueError _ => False
       end.
Proof.
  intros H.
  destruct (parquet src) as [raw|] eqn:Hp.
  - destruct (csv src) as [z|] eqn:Hz.
    + destruct H as [H | [H | (raw' & c & Hraw & Hc & Hmiss)]];
        try discriminate.
      injection Hraw as <-.
      destruct (load_data_missing_column src raw z c Hp Hz Hc Hmiss)
        as (cs & Hload & Hne & Hcs).
      exists (KeyError cs).
      split; [exact Hload|].
      split; [apply load_failure_blank_page, Hload|].
      split; [exact Hne|]. exists raw. auto.
    + assert (load_data src = Raise (OSError zone_path)) as Hload.
      { unfold load_data, read_parquet, read_csv. rewrite Hp, Hz.
        reflexivity. }
      exists (OSError zone_path).
      split; [exact Hload|].
      split; [apply load_failure_blank_page, Hload | auto].
  - assert (load_data src = Raise (OSError trip_path)) as Hload.
    { unfold load_data, read_parquet. rewrite Hp. reflexivity. }
    exists (OSError trip_path).
    split; [exact Hload|].
    split; [apply load_failure_blank_page, Hload | auto].
Qed.

Lemma loader_failure_is_fatal_witness :
  exists e,
    load_data (mkSources None (Some sample_zones)) = Raise e
    /\ run (mkSources None (Some sample_zones))
         (mkInputs [19723; 19723] all_day payment_options) = ([], Raise e)
    /\ match e with
       | OSError path =>
           (path = trip_path
            /\ parquet (mkSources None (Some sample_zones)) = None)
           \/ (path = zone_path
               /\ csv (mkSources None (Some sample_zones)) = None)
       | KeyError cs =>
           cs <> []
           /\ exists raw,
                parquet (mkSources None (Some sample_zones)) = Some raw
                /\ forall c, c ∈ cs -> c ∈ loader_columns
                                       /\ (c ∉ columns raw)
       | IndexError | ValueError _ => False
       end.
Proof.
  apply (loader_failure_is_fatal (mkSources None (Some sample_zones))).
  left. reflexivity.
Defined.

(** C5, as stated, fails: a trip file without the [total_amount] column
    loads without error, and the run raises only after the title, the
    sidebar and two metrics are on the page. *)
Lemma missing_total_amount_loads :
  ("total_amount" ∉ columns no_total_trips)
  /\ load_data no_total_sources = Ok (no_total_df, sample_zones)
  /\ exists page,
       run no_total_sources (mkInputs [19723; 19723] all_day payment_options)
       = (page, Raise (KeyError ["total_amount"]))
       /\ length page = 10%nat
       /\ last page = Some (Metric "Avg Fare" "$15.00").
Proof.
  split.
  { apply (bool_decide_unpack _). vm_compute. exact I. }
  split; [vm_compute; reflexivity|].
  eexists. split; [vm_compute; reflexivity|].
  split; reflexivity.
Qed.

(** ** Distinct values, counts and sorting *)

Section Unique.
Context {K : Type} `{EqDecision K}.

Lemma elem_of_list_filter_bool (f : K -> bool) (l : list K) (x : K) :
  x ∈ List.filter f l <-> x ∈ l /\ f x = true.
Proof. rewrite !list_elem_of_In. apply filter_In. Qed.

Lemma elem_of_unique (l : list K) (x : K) : x ∈ unique l <-> x ∈ l.
Proof.
  induction l as [|y l IH]; simpl; [reflexivity|].
  rewrite !elem_of_cons, elem_of_list_filter_bool, IH, bool_decide_eq_true.
  destruct (decide (x = y)); tauto.
Qed.

Lemma NoDup_filter_bool (f : K -> bool) (l : list K) :
  NoDup l -> NoDup (List.filter f l).
Proof.
  induction 1 as [|x l Hx _ IH]; simpl; [constructor|].
  destruct (f x); [|exact IH].
  constructor; [|exact IH].
  rewrite elem_of_list_filter_bool. tauto.
Qed.

Lemma NoDup_unique (l : list K) : NoDup (unique l).
Proof.
  induction l as [|y l IH]; simpl; constructor.
  - rewrite elem_of_list_filter_bool, bool_decide_eq_true. tauto.
  - apply NoDup_filter_bool, IH.
Qed.

Lemma count_0 (k : K) (l : list K) : k ∉ l -> count k l = 0%nat.
Proof.
  unfold count. induction l as [|y l IH]; simpl; [reflexivity|].
  rewrite not_elem_of_cons. intros [Hne Hl].
  rewrite bool_decide_eq_false_2 by congruence. auto.
Qed.
End Unique.

Section Sorting.
Context {A : Type} (le : A -> A -> bool).

Lemma insert_by_perm (x : A) (l : list A) : insert_by le x l ≡ₚ x :: l.
Proof.
  induction l as [|y l IH]; simpl; [reflexivity|].
  destruct (le x y); [reflexivity|].
  rewrite IH. apply Permutation_swap.
Qed.

Lemma sort_by_perm (l : list A) : sort_by le l ≡ₚ l.
Proof.
  unfold sort_by. induction l as [|x l IH]; simpl; [reflexivity|].
  rewrite insert_by_perm, IH. reflexivity.
Qed.

Lemma elem_of_sort_by (l : list A) (x : A) : x ∈ sort_by le l <-> x ∈ l.
Proof. rewrite sort_by_perm. reflexivity. Qed.

Lemma NoDup_sort_by (l : list A) : NoDup l -> NoDup (sort_by le l).
Proof. rewrite sort_by_perm. auto. Qed.

Lemma length_sort_by (l : list A) : length (sort_by le l) = length l.
Proof. apply Permutation_length, sort_by_perm. Qed.

Hypothesis le_total : forall x y, le x y = false -> le y x = true.
Hypothesis le_trans :
  forall x y z, le x y = true -> le y z = true -> le x z = true.

Lemma insert_by_sorted (x : A) (l : list A) :
  StronglySorted (fun a b => le a b = true) l ->
  StronglySorted (fun a b => le a b = true) (insert_by le x l).
Proof.
  induction 1 as [|y l Hl IH Hy]; simpl.
  - repeat constructor.
  - destruct (le x y) eqn:Hxy.
    + constructor; [constructor; assumption|].
      constructor; [exact Hxy|].
      eapply Forall_impl; [exact Hy|]. intros z Hz. eauto.
    + constructor; [exact IH|].
      rewrite insert_by_perm. constructor; auto.
Qed.

Lemma sort_by_sorted (l : list A) :
  StronglySorted (fun a b => le a b = true) (sort_by le l).
Proof.
  unfold sort_by. induction l as [|x l IH]; simpl; [constructor|].
  apply insert_by_sorted, IH.
Qed.
End Sorting.

Lemma StronglySorted_take {A} (R : A -> A -> Prop) (n : nat) (l : list A) :
  StronglySorted R l -> StronglySorted R (take n l).
Proof.
  intros H. rewrite <- (take_drop n l) in H.
  eapply StronglySorted_app_1_l, H.
Qed.

Lemma lookup_map {A B} (f : A -> B) (l : list A) (i : nat) :
  map f l !! i = option_map f (l !! i).
Proof.
  revert i. induction l as [|x l IH]; intros [|i]; simpl; auto.
Qed.

Lemma NoDup_bounded_length {A} (l universe : list A) :
  NoDup l -> (forall x, x ∈ l -> x ∈ universe) ->
  (length l <= length universe)%nat.
Proof.
  intros Hnd Hsub. apply submseteq_length, NoDup_submseteq; assumption.
Qed.

(** ** Top pickup zones *)

Lemma nlargest_length {K} (n : nat) (s : list (K * nat)) :
  (length (nlargest n s) <= n)%nat.
Proof. unfold nlargest. rewrite length_take. lia. Qed.

Lemma nlargest_elem {K} (n : nat) (s : list (K * nat)) x :
  x ∈ nlargest n s -> x ∈ s.
Proof.
  unfold nlargest. intros Hx. apply subseteq_take in Hx.
  apply elem_of_sort_by in Hx. exact Hx.
Qed.

Lemma StronglySorted_impl {A} (R R' : A -> A -> Prop) (l : list A) :
  (forall a b, R a b -> R' a b) ->
  StronglySorted R l -> StronglySorted R' l.
Proof.
  intros Himpl. induction 1 as [|a l _ IH Ha]; constructor; [exact IH|].
  eapply Forall_impl; [exact Ha | auto].
Qed.

Lemma nlargest_sorted {K} (n : nat) (s : list (K * nat)) :
  StronglySorted (fun a b => (b.2 <= a.2)%nat) (nlargest n s).
Proof.
  unfold nlargest. apply StronglySorted_take.
  apply (StronglySorted_impl
           (fun a b : K * nat => Nat.leb b.2 a.2 = true)).
  - intros a b Hab. apply Nat.leb_le, Hab.
  - apply (sort_by_sorted (fun a b : K * nat => Nat.leb b.2 a.2)).
    + intros x y Hxy. apply Nat.leb_gt in Hxy. apply Nat.leb_le. lia.
    + intros x y z Hxy Hyz. apply Nat.leb_le in Hxy, Hyz.
      apply Nat.leb_le. lia.
Qed.

Lemma elem_of_groupby_size {K} `{EqDecision K} (le : K -> K -> bool)
    (keys : Series (option K)) (e : K * nat) :
  e ∈ groupby_size le keys
  <-> e.1 ∈ dropnull keys /\ e.2 = count e.1 (dropnull keys).
Proof.
  unfold groupby_size. rewrite list_elem_of_In, in_map_iff. split.
  - intros (k & <- & Hk). simpl.
    rewrite <- list_elem_of_In, elem_of_sort_by, elem_of_unique in Hk.
    split; [exact Hk | reflexivity].
  - intros [Hk Hc]. exists e.1. split.
    + destruct e; simpl in *; congruence.
    + rewrite <- list_elem_of_In, elem_of_sort_by, elem_of_unique. exact Hk.
Qed.

Lemma elem_of_merge (left : list (Z * nat)) (right : list (Z * string)) t :
  t ∈ merge left right
  <-> exists l z, l ∈ left /\ z ∈ right /\ z.1 = l.1
                  /\ t = mkTopZone l.1 l.2 z.1 z.2.
Proof.
  unfold merge. rewrite list_elem_of_In, in_flat_map. split.
  - intros (l & Hl & Ht). apply in_map_iff in Ht as (z & <- & Hz).
    apply filter_In in Hz as [Hz Heq]. apply Z.eqb_eq in Heq.
    exists l, z. rewrite !list_elem_of_In. auto.
  - intros (l & z & Hl & Hz & Heq & ->). exists l.
    split; [apply list_elem_of_In, Hl|].
    apply in_map_iff. exists z. split; [reflexivity|].
    apply filter_In. split; [apply list_elem_of_In, Hz|].
    apply Z.eqb_eq, Heq.
Qed.

Lemma merge_sorted (left : list (Z * nat)) (right : list (Z * string)) :
  StronglySorted (fun a b => (b.2 <= a.2)%nat) left ->
  StronglySorted (fun a b => (trip_count b <= trip_count a)%nat)
    (merge left right).
Proof.
  induction 1 as [|l left Hleft IH Hl]; simpl; [constructor|].
  apply StronglySorted_app_2.
  - intros x1 x2 Hx1 Hx2.
    apply list_elem_of_In, in_map_iff in Hx1 as (z & <- & _).
    apply elem_of_merge in Hx2 as (l' & z' & Hl' & _ & _ & ->). simpl.
    rewrite Forall_forall in Hl. apply Hl, Hl'.
  - generalize (List.filter (fun z : Z * string => z.1 =? l.1) right) as zs.
    induction zs as [|z zs IHz]; simpl; constructor; [exact IHz|].
    apply Forall_forall. intros t Ht.
    apply list_elem_of_In, in_map_iff in Ht as (z' & <- & _). simpl. lia.
  - exact IH.
Qed.

Lemma filter_key_length (k : Z) (right : list (Z * string)) :
  NoDup (map fst right) ->
  (length (List.filter (fun z : Z * string => (z.1 =? k)%Z) right) <= 1)%nat.
Proof.
  induction right as [|z right IH]; simpl; [lia|].
  intros Hnd. apply NoDup_cons in Hnd as [Hz Hnd].
  destruct (z.1 =? k) eqn:Heq; [|auto].
  apply Z.eqb_eq in Heq. simpl.
  destruct (List.filter (fun z : Z * string => z.1 =? k) right)
    as [|z' zs] eqn:Hf; [simpl; lia|].
  exfalso. apply Hz.
  assert (In z' (List.filter (fun z : Z * string => z.1 =? k) right)) as Hin
    by (rewrite Hf; left; reflexivity).
  apply filter_In in Hin as [Hin Hk]. apply Z.eqb_eq in Hk.
  apply list_elem_of_In, in_map_iff. exists z'. split; [congruence | exact Hin].
Qed.

Lemma merge_length (left : list (Z * nat)) (right : list (Z * string)) :
  NoDup (map fst right) -> (length (merge left right) <= length left)%nat.
Proof.
  intros Hnd. unfold merge.
  induction left as [|l left IH]; simpl; [lia|].
  rewrite length_app, length_map.
  pose proof (filter_key_length l.1 right Hnd). lia.
Qed.

Lemma zone_names_run (zones_df : DataFrame ZoneRow) :
  "LocationID" ∈ columns zones_df -> "Zone" ∈ columns zones_df ->
  zone_names zones_df
  = Ok (map (fun z => (LocationID z, Zone z)) (rows zones_df)).
Proof.
  intros Hid Hzone. unfold zone_names, missing_from. simpl.
  rewrite !bool_decide_eq_false_2 by auto. reflexivity.
Qed.

(** C8. The data of the top-pickup-zones chart lists at most 10 zones, in
    descending order of trip count, each with the number of trips of the
    view picked up there, and every listed zone is a row of the zone lookup
    with that ID (zones without a lookup row are left out by the join).
    When no ID occurs twice in the lookup the chart has at most 10 rows. *)
Theorem top_zones_chart (src : Sources) df zones dr hr S view :
  load_data src = Ok (df, zones) ->
  filtered_df df dr hr S = Ok view ->
  "LocationID" ∈ columns zones -> "Zone" ∈ columns zones ->
  exists chart,
    top_zones view zones = Ok chart
    /\ (length (unique (map top_PULocationID chart)) <= 10)%nat
    /\ StronglySorted (fun a b => (trip_count b <= trip_count a)%nat) chart
    /\ (forall t, t ∈ chart ->
          exists z, z ∈ rows zones /\ LocationID z = top_PULocationID t
                    /\ Zone z = top_Zone t)
    /\ (forall t, t ∈ chart ->
          trip_count t
          = count (top_PULocationID t)
              (dropnull (map PULocationID (rows view))))
    /\ (NoDup (map LocationID (rows zones)) -> (length chart <= 10)%nat).
Proof.
  intros Hload Hview Hid Hzone.
  destruct (filtered_view _ _ _ _ _ _ _ Hload Hview) as (_ & Hcols & _).
  unfold loader_columns in Hcols. rewrite !Forall_cons in Hcols.
  destruct Hcols as (_ & _ & Hpu & _).
  unfold top_zones.
  rewrite (getitem_elem _ _ _ Hpu), (zone_names_run _ Hid Hzone). simpl.
  set (top := nlargest 10 _).
  set (names := map _ (rows zones)).
  eexists. split; [reflexivity|].
  split; [|split; [|split; [|split]]].
  - transitivity (length (map fst top)).
    + apply NoDup_bounded_length; [apply NoDup_unique|].
      intros k Hk. rewrite elem_of_unique in Hk.
      apply list_elem_of_In, in_map_iff in Hk as (t & <- & Ht).
      apply list_elem_of_In, elem_of_merge in Ht as (l & z & Hl & _ & _ & ->).
      simpl. apply list_elem_of_In, in_map, list_elem_of_In, Hl.
    + rewrite length_map. apply nlargest_length.
  - apply merge_sorted, nlargest_sorted.
  - intros t Ht. apply elem_of_merge in Ht as (l & z & _ & Hz & Heq & ->).
    subst names. apply list_elem_of_In, in_map_iff in Hz as (z0 & <- & Hz0).
    exists z0. simpl in *. rewrite list_elem_of_In. auto.
  - intros t Ht. apply elem_of_merge in Ht as (l & z & Hl & _ & _ & ->).
    simpl. apply nlargest_elem, elem_of_groupby_size in Hl. apply Hl.
  - intros Hnd. transitivity (length top); [|apply nlargest_length].
    apply merge_length. subst names. rewrite List.map_map. exact Hnd.
Qed.

Lemma top_zones_chart_witness :
  exists chart,
    top_zones sample_df sample_zones = Ok chart
    /\ (length (unique (map top_PULocationID chart)) <= 10)%nat
    /\ StronglySorted (fun a b => (trip_count b <= trip_count a)%nat) chart
    /\ (forall t, t ∈ chart ->
          exists z, z ∈ rows sample_zones
                    /\ LocationID z = top_PULocationID t
                    /\ Zone z = top_Zone t)
    /\ (forall t, t ∈ chart ->
          trip_count t
          = count (top_PULocationID t)
              (dropnull (map PULocationID (rows sample_df))))
    /\ (NoDup (map LocationID (rows sample_zones))
        -> (length chart <= 10)%nat).
Proof.
  apply (top_zones_chart sample_sources sample_df sample_zones
           [19723; 19723] all_day payment_options).
  - vm_compute. reflexivity.
  - vm_compute. reflexivity.
  - vm_compute. repeat constructor.
  - vm_compute. repeat constructor.
Defined.

(** ** The weekday-by-hour grid *)

Lemma lookup_count_tabulate (c : string * Z -> nat) (L : list (string * Z))
    (k : string * Z) :
  lookup_count k (map (fun k' => (k', c k')) L)
  = if decide (k ∈ L) then Some (c k) else None.
Proof.
  unfold lookup_count. induction L as [|k' L IH]; simpl.
  - destruct (decide (k ∈ [])) as [Hin|_]; [|reflexivity].
    apply elem_of_nil in Hin. contradiction.
  - destruct (decide (k' = k)) as [->|Hne].
    + rewrite bool_decide_eq_true_2 by reflexivity. simpl.
      destruct (decide (k ∈ k :: L)) as [_|Hn]; [reflexivity|].
      exfalso. apply Hn. left.
    + rewrite bool_decide_eq_false_2 by exact Hne. rewrite IH.
      destruct (decide (k ∈ L)) as [Hin|Hn], (decide (k ∈ k' :: L)) as [Hin'|Hn'];
        try reflexivity.
      * exfalso. apply Hn'. right. exact Hin.
      * exfalso. apply elem_of_cons in Hin' as [->|Hin']; tauto.
Qed.

Lemma lookup_count_groupby (le : string * Z -> string * Z -> bool)
    (keys : Series (option (string * Z))) (k : string * Z) :
  default 0%nat (lookup_count k (groupby_size le keys))
  = count k (dropnull keys).
Proof.
  unfold groupby_size. rewrite lookup_count_tabulate.
  destruct (decide (k ∈ sort_by le (unique (dropnull keys)))) as [_|Hn];
    [reflexivity|].
  simpl. symmetry. apply count_0.
  rewrite elem_of_sort_by, elem_of_unique in Hn. exact Hn.
Qed.

Lemma dropnull_cons_Some {K} (k : K) (s : Series (option K)) :
  dropnull (Some k :: s) = k :: dropnull s.
Proof. reflexivity. Qed.

Lemma dropnull_cons_None {K} (s : Series (option K)) :
  dropnull (None :: s) = dropnull s.
Proof. reflexivity. Qed.

Lemma count_cons {K} `{EqDecision K} (k x : K) (l : list K) :
  count k (x :: l)
  = ((if bool_decide (x = k) then 1 else 0) + count k l)%nat.
Proof. unfold count. simpl. destruct (bool_decide (x = k)); reflexivity. Qed.

Section Heatmap.
Variable trips : list Trip.
Hypothesis trips_cleaned : Forall cleaned trips.

Local Abbreviation keys := (map weekly_key trips).

Lemma elem_of_keys (d : string) (h : Z) :
  (d, h) ∈ dropnull keys
  <-> exists r, r ∈ trips /\ pickup_dayofweek r = Some d
                /\ pickup_hour r = Some h.
Proof.
  rewrite elem_of_dropnull.
  rewrite list_elem_of_In, in_map_iff. unfold weekly_key, pair_key. split.
  - intros (r & Hk & Hr). exists r. rewrite list_elem_of_In.
    destruct (pickup_dayofweek r), (pickup_hour r); try discriminate.
    injection Hk as -> ->. auto.
  - intros (r & Hr & Hd & Hh). exists r.
    rewrite Hd, Hh, <- list_elem_of_In. auto.
Qed.

Lemma count_keys (d : string) (h : Z) :
  count (d, h) (dropnull keys)
  = length (List.filter
              (fun r => bool_decide (pickup_dayofweek r = Some d
                                     /\ pickup_hour r = Some h))
              trips).
Proof.
  clear trips_cleaned.
  induction trips as [|r l IH]; [reflexivity|].
  rewrite map_cons. unfold weekly_key at 1, pair_key. simpl List.filter.
  destruct (pickup_dayofweek r) as [d'|], (pickup_hour r) as [h'|].
  - rewrite dropnull_cons_Some, count_cons.
    destruct (decide (d' = d /\ h' = h)) as [[-> ->]|Hne].
    + rewrite !bool_decide_eq_true_2 by auto. simpl. rewrite IH. reflexivity.
    + rewrite !bool_decide_eq_false_2; [exact IH| |].
      * intros [[= ->] [= ->]]. tauto.
      * intros [= -> ->]. tauto.
  - rewrite dropnull_cons_None, bool_decide_eq_false_2; [exact IH|].
    intros [_ [=]].
  - rewrite dropnull_cons_None, bool_decide_eq_false_2; [exact IH|].
    intros [[=] _].
  - rewrite dropnull_cons_None, bool_decide_eq_false_2; [exact IH|].
    intros [[=] _].
Qed.

Lemma elem_of_weekdays (le : string * Z -> string * Z -> bool) (d : string) :
  d ∈ map (fun e : (string * Z) * nat => e.1.1) (groupby_size le keys)
  <-> exists r, r ∈ trips /\ pickup_dayofweek r = Some d.
Proof.
  rewrite list_elem_of_In, in_map_iff. split.
  - intros (e & <- & He).
    apply list_elem_of_In, elem_of_groupby_size in He as [He _].
    destruct e as [[d' h'] n]. simpl in *.
    apply elem_of_keys in He as (r & Hr & Hd & _). eauto.
  - intros (r & Hr & Hd).
    rewrite Forall_forall in trips_cleaned.
    destruct (trips_cleaned r Hr) as (p & q & Hc).
    exists ((d, hour_of p), count (d, hour_of p) (dropnull keys)).
    split; [reflexivity|].
    apply list_elem_of_In, elem_of_groupby_size. split; [|reflexivity].
    simpl. apply elem_of_keys. exists r.
    split; [exact Hr|]. split; [exact Hd | apply (hour_derived _ _ _ Hc)].
Qed.

Lemma elem_of_hours (le : string * Z -> string * Z -> bool) (h : Z) :
  h ∈ map (fun e : (string * Z) * nat => e.1.2) (groupby_size le keys)
  <-> exists r, r ∈ trips /\ pickup_hour r = Some h.
Proof.
  rewrite list_elem_of_In, in_map_iff. split.
  - intros (e & <- & He).
    apply list_elem_of_In, elem_of_groupby_size in He as [He _].
    destruct e as [[d' h'] n]. simpl in *.
    apply elem_of_keys in He as (r & Hr & _ & Hh). eauto.
  - intros (r & Hr & Hh).
    rewrite Forall_forall in trips_cleaned.
    destruct (trips_cleaned r Hr) as (p & q & Hc).
    exists ((day_name_of p, h), count (day_name_of p, h) (dropnull keys)).
    split; [reflexivity|].
    apply list_elem_of_In, elem_of_groupby_size. split; [|reflexivity].
    simpl. apply elem_of_keys. exists r.
    split; [exact Hr|]. split; [apply (dayofweek_derived _ _ _ Hc) | exact Hh].
Qed.
End Heatmap.

Lemma day_name_of_elem (t : Z) : day_name_of t ∈ day_names.
Proof.
  unfold day_name_of.
  destruct (nth_in_or_default (Z.to_nat (weekday_of t)) day_names "Sunday")
    as [Hin | ->].
  - apply list_elem_of_In, Hin.
  - unfold day_names. repeat constructor.
Qed.

(** C3, as the code has it.  The grid has one row for each weekday name on
    which the view has a trip (at most 7) and one column for each pickup
    hour at which it has one (at most 24), no label twice; every cell of
    those rows and columns is present and holds the number of trips of the
    view for that weekday and hour, which is 0 where there is none.
    Weekdays and hours without any trip in the view get no row or column. *)
Theorem heatmap_grid (src : Sources) df zones dr hr S view :
  load_data src = Ok (df, zones) ->
  filtered_df df dr hr S = Ok view ->
  exists g,
    weekly view = Ok g
    /\ NoDup (grid_index g) /\ NoDup (grid_columns g)
    /\ (length (grid_index g) <= 7)%nat
    /\ (length (grid_columns g) <= 24)%nat
    /\ (forall d, d ∈ grid_index g
                  <-> exists r, r ∈ rows view /\ pickup_dayofweek r = Some d)
    /\ (forall h, h ∈ grid_columns g
                  <-> exists r, r ∈ rows view /\ pickup_hour r = Some h)
    /\ length (grid_values g) = length (grid_index g)
    /\ (forall i j d h,
          grid_index g !! i = Some d -> grid_columns g !! j = Some h ->
          exists cells,
            grid_values g !! i = Some cells
            /\ length cells = length (grid_columns g)
            /\ cells !! j = Some (trips_at d h view)).
Proof.
  intros Hload Hview.
  destruct (filtered_view _ _ _ _ _ _ _ Hload Hview)
    as (_ & _ & Hh & Hw & _ & Hclean & _).
  unfold weekly. rewrite (getitem_elem _ _ _ Hw), (getitem_elem _ _ _ Hh).
  simpl rbind. rewrite (zip_with_map_same pair_key).
  eexists. split; [reflexivity|].
  unfold unstack; simpl.
  set (s := groupby_size key_le _).
  assert (Hdays : forall d, d ∈ unique (map (fun e : string * Z * nat => e.1.1) s)
                    <-> exists r, r ∈ rows view /\ pickup_dayofweek r = Some d).
  { intros d. rewrite elem_of_unique. apply elem_of_weekdays, Hclean. }
  assert (Hhours : forall h,
             h ∈ sort_by Z.leb (unique (map (fun e : string * Z * nat => e.1.2) s))
             <-> exists r, r ∈ rows view /\ pickup_hour r = Some h).
  { intros h. rewrite elem_of_sort_by, elem_of_unique.
    apply elem_of_hours, Hclean. }
  rewrite Forall_forall in Hclean.
  split; [apply NoDup_unique|].
  split; [apply NoDup_sort_by, NoDup_unique|].
  split; [|split; [|split; [exact Hdays|split; [exact Hhours|split]]]].
  - change 7%nat with (length day_names).
    apply NoDup_bounded_length; [apply NoDup_unique|].
    intros d Hd. apply Hdays in Hd as (r & Hr & Hd).
    destruct (Hclean r Hr) as (p & q & Hc).
    rewrite (dayofweek_derived _ _ _ Hc) in Hd. injection Hd as <-.
    apply day_name_of_elem.
  - change 24%nat with (length (seqZ 0 24)).
    apply NoDup_bounded_length; [apply NoDup_sort_by, NoDup_unique|].
    intros h Hh'. apply Hhours in Hh' as (r & Hr & Hh').
    destruct (Hclean r Hr) as (p & q & Hc).
    rewrite (hour_derived _ _ _ Hc) in Hh'. injection Hh' as <-.
    apply elem_of_seqZ. pose proof (hour_of_range p). lia.
  - apply length_map.
  - intros i j d h Hi Hj.
    eexists. rewrite lookup_map, Hi. simpl. split; [reflexivity|].
    split; [apply length_map|].
    rewrite lookup_map, Hj. simpl. f_equal.
    subst s. rewrite lookup_count_groupby. apply count_keys.
Qed.

Lemma heatmap_grid_witness :
  exists g,
    weekly sample_df = Ok g
    /\ NoDup (grid_index g) /\ NoDup (grid_columns g)
    /\ (length (grid_index g) <= 7)%nat
    /\ (length (grid_columns g) <= 24)%nat
    /\ (forall d, d ∈ grid_index g
                  <-> exists r, r ∈ rows sample_df
                                /\ pickup_dayofweek r = Some d)
    /\ (forall h, h ∈ grid_columns g
                  <-> exists r, r ∈ rows sample_df /\ pickup_hour r = Some h)
    /\ length (grid_values g) = length (grid_index g)
    /\ (forall i j d h,
          grid_index g !! i = Some d -> grid_columns g !! j = Some h ->
          exists cells,
            grid_values g !! i = Some cells
            /\ length cells = length (grid_columns g)
            /\ cells !! j = Some (trips_at d h sample_df)).
Proof.
  apply (heatmap_grid sample_sources sample_df sample_zones
           [19723; 19723] all_day payment_options).
  - vm_compute. reflexivity.
  - vm_compute. reflexivity.
Defined.

(** C3, as stated, fails: for the view of the two scenario trips, both
    picked up on a Monday, at 8 and at 9, the grid has one row and two
    columns, not 7 rows and 24 columns. *)
Lemma heatmap_of_two_monday_trips :
  load_data sample_sources = Ok (sample_df, sample_zones)
  /\ exists view,
       filtered_df sample_df [19723; 19723] all_day payment_options = Ok view
       /\ weekly view = Ok (mkGrid ["Monday"] [8; 9] [[1%nat; 1%nat]]).
Proof.
  split; [vm_compute; reflexivity|].
  eexists. split; vm_compute; reflexivity.
Qed.

(** * Further properties *)

(** ** The loader on readable sources *)

Lemma elem_of_setitem_columns {R A} (df : DataFrame R) c (store : A -> R -> R)
    s x :
  x ∈ columns (setitem df c store s) <-> x ∈ columns df \/ x = c.
Proof.
  unfold setitem; simpl. destruct (decide (c ∈ columns df)) as [Hc|Hc].
  - split; [auto|]. intros [Hx | ->]; assumption.
  - rewrite elem_of_app, list_elem_of_singleton. reflexivity.
Qed.

Lemma missing_from_Forall {R} (df : DataFrame R) names :
  Forall (fun c => c ∈ columns df) names -> missing_from df names = [].
Proof.
  intros Hall. destruct (missing_from df names) as [|c cs] eqn:Hm;
    [reflexivity|].
  assert (c ∈ missing_from df names) as Hc by (rewrite Hm; left).
  apply elem_of_missing_from in Hc as [Hin Hout].
  rewrite Forall_forall in Hall. exfalso. apply Hout, Hall, Hin.
Qed.

Lemma dropna_run {R} (df : DataFrame R) subset :
  Forall (fun c => c ∈ columns df) (map fst subset) ->
  dropna df subset
  = Ok (mkFrame (columns df)
          (List.filter (fun r => negb (existsb (fun c => c.2 r) subset))
             (rows df))).
Proof.
  intros Hall. unfold dropna. rewrite (missing_from_Forall _ _ Hall).
  reflexivity.
Qed.

(** X1. With both sources readable and the six columns it reads present,
    the loader does not raise: it returns the zone table as read and
    exactly the valid trips of the trip file, in file order, each with its
    three calendar fields; the columns are those of the file and the three
    derived ones. *)
Theorem load_data_returns_valid_trips (src : Sources) raw zones :
  parquet src = Some raw -> csv src = Some zones ->
  Forall (fun c => c ∈ columns raw) loader_columns ->
  exists df,
    load_data src = Ok (df, zones)
    /\ rows df = map with_calendar (List.filter valid_trip (rows raw))
    /\ (forall c, c ∈ columns df
                  <-> c ∈ columns raw \/ c ∈ derived_columns).
Proof.
  intros Hp Hz Hcols.
  unfold loader_columns in Hcols. rewrite !Forall_cons in Hcols.
  destruct Hcols as (Hpu & Hdo & Hpz & Hdz & Hfare & Hdist & _).
  assert (exists df, load_data src = Ok (df, zones)
            /\ (forall c, c ∈ columns df
                          <-> c ∈ columns raw \/ c ∈ derived_columns))
    as (df & Hload & Hiff).
  { unfold load_data, read_parquet, read_csv.
    rewrite Hp, Hz. simpl rbind.
    rewrite dropna_run by (simpl; repeat constructor; assumption).
    simpl rbind.
    rewrite (getitem_elem _ "trip_distance") by exact Hdist.
    rewrite (getitem_elem _ "fare_amount") by exact Hfare.
    rewrite (getitem_elem _ "tpep_dropoff_datetime") by exact Hdo.
    rewrite (getitem_elem _ "tpep_pickup_datetime") by exact Hpu.
    simpl rbind.
    rewrite (getitem_elem (df_mask _ _) "tpep_pickup_datetime")
      by exact Hpu.
    simpl rbind.
    rewrite (getitem_elem (setitem _ _ _ _) "tpep_pickup_datetime")
      by (apply setitem_columns_new).
    simpl rbind.
    rewrite (getitem_elem (setitem _ _ _ _) "tpep_pickup_datetime")
      by (apply setitem_columns_keep, setitem_columns_new).
    simpl rbind.
    rewrite (getitem_elem (setitem _ _ _ _) "tpep_pickup_datetime")
      by (do 2 apply setitem_columns_keep; apply setitem_columns_new).
    simpl rbind.
    eexists. split; [reflexivity|].
    intros c. rewrite !elem_of_setitem_columns. unfold derived_columns.
    rewrite !elem_of_cons, elem_of_nil. simpl.
    split.
    - intros [[[[H | ->] | ->] | ->] | ->]; auto.
    - intros [H | [-> | [-> | [-> | []]]]]; auto. }
  exists df. split; [exact Hload|]. split; [|exact Hiff].
  apply load_data_Ok in Hload as (raw' & Hp' & _ & _ & _ & _ & _ & _ & Hrows).
  rewrite Hp in Hp'. injection Hp' as <-. exact Hrows.
Qed.

Lemma load_data_returns_valid_trips_witness :
  exists df,
    load_data sample_sources = Ok (df, sample_zones)
    /\ rows df = map with_calendar (List.filter valid_trip (rows sample_trips))
    /\ (forall c, c ∈ columns df
                  <-> c ∈ columns sample_trips \/ c ∈ derived_columns).
Proof.
  apply (load_data_returns_valid_trips sample_sources sample_trips
           sample_zones).
  - reflexivity.
  - reflexivity.
  - vm_compute. repeat constructor.
Defined.

(** X2. In every cleaned row the pickup hour is an hour of the day, the
    pickup time lies in that hour of the pickup date, and the weekday name
    is the one of that date, one of the seven English names. *)
Theorem calendar_fields_agree (src : Sources) df zones :
  load_data src = Ok (df, zones) ->
  Forall (fun r =>
            exists p d h name,
              tpep_pickup_datetime r = Some p
              /\ pickup_date r = Some d /\ pickup_hour r = Some h
              /\ pickup_dayofweek r = Some name
              /\ 0 <= h <= 23
              /\ d * 86400 + h * 3600 <= p < d * 86400 + (h + 1) * 3600
              /\ name = nth (Z.to_nat ((d + 3) mod 7)) day_names "Sunday"
              /\ name ∈ day_names)
         (rows df).
Proof.
  intros Hload. apply load_data_cleaned in Hload.
  eapply Forall_impl; [exact Hload|].
  intros r (p & q & Hc).
  exists p, (date_of p), (hour_of p), (day_name_of p).
  split; [apply (pickup_notnull _ _ _ Hc)|].
  split; [apply (date_derived _ _ _ Hc)|].
  split; [apply (hour_derived _ _ _ Hc)|].
  split; [apply (dayofweek_derived _ _ _ Hc)|].
  split; [apply hour_of_range|].
  split; [|split; [reflexivity | apply day_name_of_elem]].
  unfold date_of, hour_of.
  pose proof (Z.div_mod p 86400 ltac:(lia)) as H1.
  pose proof (Z.div_mod (p mod 86400) 3600 ltac:(lia)) as H2.
  pose proof (Z.mod_pos_bound (p mod 86400) 3600 ltac:(lia)) as H3.
  lia.
Qed.

Lemma calendar_fields_agree_witness :
  Forall (fun r =>
            exists p d h name,
              tpep_pickup_datetime r = Some p
              /\ pickup_date r = Some d /\ pickup_hour r = Some h
              /\ pickup_dayofweek r = Some name
              /\ 0 <= h <= 23
              /\ d * 86400 + h * 3600 <= p < d * 86400 + (h + 1) * 3600
              /\ name = nth (Z.to_nat ((d + 3) mod 7)) day_names "Sunday"
              /\ name ∈ day_names)
         (rows sample_df).
Proof.
  apply (calendar_fields_agree sample_sources sample_df sample_zones).
  vm_compute. reflexivity.
Defined.

(** ** The bounds of the date picker *)





(** ** Filtering a filtered view *)

Lemma filtered_df_columns (df view : DataFrame Trip) dr hr S :
  filtered_df df dr hr S = Ok view ->
  "pickup_date" ∈ columns df /\ "pickup_hour" ∈ columns df
  /\ "payment_type" ∈ columns df /\ columns view = columns df.
Proof.
  intros H. pose proof H as H'.
  apply filtered_df_Ok in H' as (d0 & d1 & _ & _ & Hpay & ->).
  unfold filtered_df in H.
  bind_inv H. apply getitem_Ok in Hstep as [Hd _].
  bind_inv H. bind_inv H.
  bind_inv H. apply getitem_Ok in Hstep1 as [Hh _].
  auto.
Qed.

Lemma elem_of_common_payments (S T : list Z) (p : Z) :
  p ∈ common_payments S T <-> p ∈ S /\ p ∈ T.
Proof.
  unfold common_payments.
  rewrite list_elem_of_In, filter_In, existsb_exists, <- list_elem_of_In.
  split.
  - intros [HS (x & Hx & Heq)]. apply Z.eqb_eq in Heq. subst x.
    split; [exact HS | apply list_elem_of_In, Hx].
  - intros [HS HT]. split; [exact HS|].
    exists p. split; [apply list_elem_of_In, HT | apply Z.eqb_refl].
Qed.

Lemma selects_common d0 d1 h0 h1 S e0 e1 g0 g1 T (r : Trip) :
  selects d0 d1 h0 h1 S r && selects e0 e1 g0 g1 T r
  = selects (Z.max d0 e0) (Z.min d1 e1) (Z.max h0 g0) (Z.min h1 g1)
      (common_payments S T) r.
Proof.
  apply eq_true_iff_eq. rewrite andb_true_iff, !selects_iff.
  unfold in_selection. split.
  - intros [((d & Hd & Hd1) & (h & Hh & Hh1) & (p & Hp & Hp1))
            ((d' & Hd' & Hd2) & (h' & Hh' & Hh2) & (p' & Hp' & Hp2))].
    rewrite Hd in Hd'. rewrite Hh in Hh'. rewrite Hp in Hp'.
    injection Hd' as <-. injection Hh' as <-. injection Hp' as <-.
    split; [exists d; split; [exact Hd | lia]|].
    split; [exists h; split; [exact Hh | lia]|].
    exists p. split; [exact Hp | apply elem_of_common_payments; auto].
  - intros ((d & Hd & Hd1) & (h & Hh & Hh1) & (p & Hp & Hp1)).
    apply elem_of_common_payments in Hp1 as [HS HT].
    split; (split; [exists d; split; [exact Hd | lia]|]);
      (split; [exists h; split; [exact Hh | lia]|]);
      exists p; auto.
Qed.

(** X4. Filtering a filtered view again gives what one run of the filter
    gives for the selection the two have in common: the overlap of the two
    date ranges, the overlap of the two hour ranges and the payment codes
    selected both times. *)
Theorem filter_twice_is_common_selection
    (df v1 v2 : DataFrame Trip) d0 d1 h0 h1 S e0 e1 g0 g1 T :
  filtered_df df [d0; d1] (h0, h1) S = Ok v1 ->
  filtered_df v1 [e0; e1] (g0, g1) T = Ok v2 ->
  filtered_df df [Z.max d0 e0; Z.min d1 e1] (Z.max h0 g0, Z.min h1 g1)
    (common_payments S T)
  = Ok v2.
Proof.
  intros H1 H2.
  destruct (filtered_df_columns _ _ _ _ _ H1) as (Hd & Hh & Hp & _).
  apply filtered_df_Ok in H1 as (? & ? & [= <-] & [= <-] & _ & ->).
  apply filtered_df_Ok in H2 as (? & ? & [= <-] & [= <-] & _ & ->).
  rewrite filtered_df_run by assumption. simpl.
  rewrite filter_filter_and. do 2 f_equal.
  apply filter_ext. intros r. symmetry. apply selects_common.
Qed.

Lemma filter_twice_is_common_selection_witness :
  filtered_df sample_df [19723; 19724] (9, 23) [2; 3]
  = Ok (mkFrame (columns sample_df)
          (List.filter (selects 19723 19724 9 23 [2; 3]) (rows sample_df))).
Proof.
  apply (filter_twice_is_common_selection sample_df
           (mkFrame (columns sample_df)
              (List.filter (selects 19000 19724 0 23 [2; 3; 1])
                 (rows sample_df)))
           _ 19000 19724 0 23 [2; 3; 1] 19723 19800 9 23 [2; 3]).
  - vm_compute. reflexivity.
  - vm_compute. reflexivity.
Defined.

Lemma filter_idem {A} (f : A -> bool) (l : list A) :
  List.filter f (List.filter f l) = List.filter f l.
Proof.
  rewrite filter_filter_and. apply filter_ext.
  intros x. destruct (f x); reflexivity.
Qed.

(** X5. The filter is idempotent: applied with the same selection to the
    view it returned, it returns that view again. *)
Theorem filter_idempotent (df view : DataFrame Trip) dr hr S :
  filtered_df df dr hr S = Ok view ->
  filtered_df view dr hr S = Ok view.
Proof.
  intros H.
  destruct (filtered_df_columns _ _ _ _ _ H) as (Hd & Hh & Hp & Hcols).
  apply filtered_df_Ok in H as (d0 & d1 & H0 & H1 & _ & ->).
  simpl in Hcols. unfold filtered_df, subscript.
  rewrite (getitem_elem _ "pickup_date") by exact Hd.
  rewrite H0, H1. simpl rbind.
  rewrite (getitem_elem _ "pickup_hour") by exact Hh.
  rewrite (getitem_elem _ "payment_type") by exact Hp.
  simpl rbind. unfold df_mask. rewrite filtered_df_rows. simpl.
  rewrite filter_idem. reflexivity.
Qed.

Lemma filter_idempotent_witness :
  filtered_df
    (mkFrame (columns sample_df)
       (List.filter (selects 19723 19723 9 23 [1; 2]) (rows sample_df)))
    [19723; 19723] (9, 23) [1; 2]
  = Ok (mkFrame (columns sample_df)
          (List.filter (selects 19723 19723 9 23 [1; 2]) (rows sample_df))).
Proof.
  apply (filter_idempotent sample_df).
  vm_compute. reflexivity.
Defined.

(** ** Runs of the script on a loaded table *)

Lemma sidebar_run (df : DataFrame Trip) page :
  "pickup_date" ∈ columns df ->
  sidebar df page
  = ((page ++ [SidebarHeader "Filters";
               DateInput "Date Range"
                 (series_min (map pickup_date (rows df)))
                 (series_max (map pickup_date (rows df)));
               Slider "Hour Range (0-23)" 0 23;
               Multiselect "Payment Types" payment_options])%list,
     Ok tt).
Proof.
  intros Hd. unfold sidebar, sbind, emit, lift.
  rewrite (getitem_elem _ _ _ Hd). simpl. rewrite <- !app_assoc. reflexivity.
Qed.

(** After a successful load the page holds the title and the sidebar, and
    the run goes on with the filter, the metrics and the tabs. *)
Lemma run_loaded (src : Sources) (ui : Inputs) df zones :
  load_data src = Ok (df, zones) ->
  run src ui
  = sbind (lift (filtered_df df (date_range ui) (hour_range ui)
                   (selected_payments ui)))
      (fun view => sbind (render_metrics view)
                     (fun _ => render_tabs view zones))
      (sidebar_page (series_min (map pickup_date (rows df)))
         (series_max (map pickup_date (rows df)))).
Proof.
  intros Hload. pose proof Hload as Hcols.
  apply load_data_Ok in Hcols as (_ & _ & _ & _ & _ & Hd & _).
  unfold run, app. unfold sbind at 1. unfold lift at 1. rewrite Hload.
  simpl fst. simpl snd.
  unfold sbind at 1. unfold emit at 1.
  unfold sbind at 1. unfold emit at 1.
  unfold sbind at 1. rewrite (sidebar_run _ _ Hd). reflexivity.
Qed.

Lemma render_tabs_run (view : DataFrame Trip) (zones_df : DataFrame ZoneRow)
    zones shares fares grid page :
  top_zones view zones_df = Ok zones ->
  payment_counts view = Ok shares ->
  hourly_fare view = Ok fares ->
  "trip_distance" ∈ columns view ->
  weekly view = Ok grid ->
  render_tabs view zones_df page
  = ((page ++ tabs_elements zones shares fares
                (map trip_distance (rows view)) grid)%list,
     Ok tt).
Proof.
  intros Hz Hs Hf Hd Hg. unfold render_tabs, sbind, emit, lift, px_column.
  rewrite Hz, Hs, Hf, Hg.
  destruct (decide ("trip_distance" ∈ columns view)); [|contradiction].
  simpl. rewrite <- !app_assoc. reflexivity.
Qed.

(** X6. When the date picker has handed over fewer than two dates, the run
    on a loaded, non-empty table stops with an [IndexError] once the title
    and the sidebar are drawn: no metric and no chart is on the page. *)
Theorem incomplete_date_range_raises (src : Sources) (ui : Inputs) df zones :
  load_data src = Ok (df, zones) ->
  rows df <> [] ->
  (length (date_range ui) < 2)%nat ->
  run src ui
  = (sidebar_page (series_min (map pickup_date (rows df)))
       (series_max (map pickup_date (rows df))),
     Raise IndexError).
Proof.
  intros Hload _ Hlen. rewrite (run_loaded _ _ _ _ Hload).
  apply load_data_Ok in Hload as (_ & _ & _ & _ & _ & Hd & _).
  unfold sbind at 1. unfold lift, filtered_df, subscript.
  rewrite (getitem_elem _ _ _ Hd).
  destruct (date_range ui) as [|a [|b l]]; simpl in *; try reflexivity.
  lia.
Qed.

Lemma incomplete_date_range_raises_witness :
  run sample_sources (mkInputs [19723] all_day payment_options)
  = (sidebar_page (series_min (map pickup_date (rows sample_df)))
       (series_max (map pickup_date (rows sample_df))),
     Raise IndexError).
Proof.
  apply (incomplete_date_range_raises sample_sources
           (mkInputs [19723] all_day payment_options) sample_df sample_zones).
  - vm_compute. reflexivity.
  - discriminate.
  - simpl. lia.
Defined.

Lemma view_chart_columns (src : Sources) df zones dr hr S view :
  load_data src = Ok (df, zones) ->
  filtered_df df dr hr S = Ok view ->
  "PULocationID" ∈ columns view /\ "payment_type" ∈ columns view
  /\ "pickup_hour" ∈ columns view /\ "fare_amount" ∈ columns view
  /\ "trip_distance" ∈ columns view /\ "pickup_dayofweek" ∈ columns view.
Proof.
  intros Hload Hview.
  destruct (filtered_view _ _ _ _ _ _ _ Hload Hview)
    as (_ & Hcols & Hh & Hw & Hp & _).
  unfold loader_columns in Hcols. rewrite !Forall_cons in Hcols.
  destruct Hcols as (_ & _ & Hpu & _ & Hf & Hd & _). auto 10.
Qed.

Lemma chart_data_Ok (src : Sources) df zones dr hr S view :
  load_data src = Ok (df, zones) ->
  filtered_df df dr hr S = Ok view ->
  "LocationID" ∈ columns zones -> "Zone" ∈ columns zones ->
  exists bars shares fares grid,
    top_zones view zones = Ok bars
    /\ payment_counts view = Ok shares
    /\ hourly_fare view = Ok fares
    /\ weekly view = Ok grid.
Proof.
  intros Hload Hview Hid Hzone.
  destruct (view_chart_columns _ _ _ _ _ _ _ Hload Hview)
    as (Hpu & Hp & Hh & Hf & Hd & Hw).
  unfold top_zones, payment_counts, hourly_fare, weekly.
  rewrite (getitem_elem _ _ _ Hpu), (getitem_elem _ _ _ Hp),
    (getitem_elem _ _ _ Hh), (getitem_elem _ _ _ Hf),
    (getitem_elem _ _ _ Hw), (zone_names_run _ Hid Hzone).
  simpl rbind. do 4 eexists. repeat split; reflexivity.
Qed.

(** X7. For every view filtered from a loaded table and every zone lookup
    that has the [LocationID] and [Zone] columns, the data of the five
    charts is computed without a raise; for a view without rows the bar,
    pie and line charts get no entry and the grid no row and no column. *)
Theorem chart_data_never_raises (src : Sources) df zones dr hr S view :
  load_data src = Ok (df, zones) ->
  filtered_df df dr hr S = Ok view ->
  "LocationID" ∈ columns zones -> "Zone" ∈ columns zones ->
  exists bars shares fares grid,
    top_zones view zones = Ok bars
    /\ payment_counts view = Ok shares
    /\ hourly_fare view = Ok fares
    /\ px_column view "trip_distance" trip_distance
       = Ok (map trip_distance (rows view))
    /\ weekly view = Ok grid
    /\ (rows view = [] ->
        bars = [] /\ shares = [] /\ fares = [] /\ grid = mkGrid [] [] []).
Proof.
  intros Hload Hview Hid Hzone.
  destruct (view_chart_columns _ _ _ _ _ _ _ Hload Hview)
    as (Hpu & Hp & Hh & Hf & Hd & Hw).
  unfold top_zones, payment_counts, hourly_fare, weekly, px_column.
  rewrite (getitem_elem _ _ _ Hpu), (getitem_elem _ _ _ Hp),
    (getitem_elem _ _ _ Hh), (getitem_elem _ _ _ Hf),
    (getitem_elem _ _ _ Hw), (zone_names_run _ Hid Hzone).
  destruct (decide ("trip_distance" ∈ columns view)); [|contradiction].
  simpl rbind.
  do 4 eexists. repeat (split; [reflexivity|]).
  intros ->. repeat split; reflexivity.
Qed.

Lemma chart_data_never_raises_witness :
  exists bars shares fares grid,
    top_zones sample_empty_view sample_zones = Ok bars
    /\ payment_counts sample_empty_view = Ok shares
    /\ hourly_fare sample_empty_view = Ok fares
    /\ px_column sample_empty_view "trip_distance" trip_distance
       = Ok (map trip_distance (rows sample_empty_view))
    /\ weekly sample_empty_view = Ok grid
    /\ (rows sample_empty_view = [] ->
        bars = [] /\ shares = [] /\ fares = [] /\ grid = mkGrid [] [] []).
Proof.
  apply (chart_data_never_raises sample_sources sample_df sample_zones
           [19723; 19723] all_day []).
  - vm_compute. reflexivity.
  - vm_compute. reflexivity.
  - vm_compute. repeat constructor.
  - vm_compute. repeat constructor.
Defined.

(** X8. On a loaded table with the [total_amount] column and a zone lookup
    with the [LocationID] and [Zone] columns, a run whose selection matches
    at least one trip raises nothing and draws, in this order, the title
    and the sidebar, the five metrics, and the three tabs with the five
    charts of the view, each followed by its caption: 24 elements. *)
Theorem run_draws_whole_page (src : Sources) (ui : Inputs) df zones view :
  load_data src = Ok (df, zones) ->
  "total_amount" ∈ columns df ->
  "LocationID" ∈ columns zones -> "Zone" ∈ columns zones ->
  filtered_df df (date_range ui) (hour_range ui) (selected_payments ui)
  = Ok view ->
  rows view <> [] ->
  exists m bars shares fares grid page,
    metrics_panel view = Ok m
    /\ top_zones view zones = Ok bars
    /\ payment_counts view = Ok shares
    /\ hourly_fare view = Ok fares
    /\ weekly view = Ok grid
    /\ page = (sidebar_page (series_min (map pickup_date (rows df)))
                 (series_max (map pickup_date (rows df)))
               ++ metrics_elements m
               ++ tabs_elements bars shares fares
                    (map trip_distance (rows view)) grid)%list
    /\ run src ui = (page, Ok tt)
    /\ length page = 24%nat
    /\ length (List.filter is_chart page) = 5%nat.
Proof.
  intros Hload Htot Hid Hzone Hview _.
  destruct (chart_data_Ok _ _ _ _ _ _ _ Hload Hview Hid Hzone)
    as (bars & shares & fares & grid & Hb & Hs & Hf & Hg).
  destruct (view_chart_columns _ _ _ _ _ _ _ Hload Hview)
    as (_ & _ & _ & _ & Hd & _).
  pose proof (metric_columns_of_view _ _ _ _ _ _ _ Hload Htot Hview) as Hc.
  pose proof (metrics_panel_run _ Hc) as Hm.
  eexists _, bars, shares, fares, grid, _.
  split; [exact Hm|]. split; [exact Hb|]. split; [exact Hs|].
  split; [exact Hf|]. split; [exact Hg|]. split; [reflexivity|].
  split; [|split; reflexivity].
  rewrite (run_loaded _ _ _ _ Hload). unfold sbind at 1. unfold lift.
  rewrite Hview. unfold sbind at 1.
  rewrite (render_metrics_panel _ _ _ Hm).
  rewrite (render_tabs_run _ _ _ _ _ _ _ Hb Hs Hf Hd Hg).
  rewrite <- app_assoc. reflexivity.
Qed.

Lemma run_draws_whole_page_witness :
  exists m bars shares fares grid page,
    metrics_panel sample_df = Ok m
    /\ top_zones sample_df sample_zones = Ok bars
    /\ payment_counts sample_df = Ok shares
    /\ hourly_fare sample_df = Ok fares
    /\ weekly sample_df = Ok grid
    /\ page = (sidebar_page
                 (series_min (map pickup_date (rows sample_df)))
                 (series_max (map pickup_date (rows sample_df)))
               ++ metrics_elements m
               ++ tabs_elements bars shares fares
                    (map trip_distance (rows sample_df)) grid)%list
    /\ run sample_sources (mkInputs [19723; 19723] all_day payment_options)
       = (page, Ok tt)
    /\ length page = 24%nat
    /\ length (List.filter is_chart page) = 5%nat.
Proof.
  apply (run_draws_whole_page sample_sources
           (mkInputs [19723; 19723] all_day payment_options)
           sample_df sample_zones sample_df).
  - vm_compute. reflexivity.
  - vm_compute. repeat constructor.
  - vm_compute. repeat constructor.
  - vm_compute. repeat constructor.
  - vm_compute. reflexivity.
  - discriminate.
Defined.

(** ** Columns the loader does not check *)

(** X9. A trip file without the [payment_type] column loads; with two
    dates picked the run on the loaded, non-empty table then stops at the
    filter with a [KeyError] for that column, the title and the sidebar
    being all that is drawn. *)
Theorem missing_payment_type_raises_at_filter
    (src : Sources) (ui : Inputs) df zones :
  load_data src = Ok (df, zones) ->
  rows df <> [] ->
  "payment_type" ∉ columns df ->
  (2 <= length (date_range ui))%nat ->
  run src ui
  = (sidebar_page (series_min (map pickup_date (rows df)))
       (series_max (map pickup_date (rows df))),
     Raise (KeyError ["payment_type"])).
Proof.
  intros Hload _ Hmiss Hlen. rewrite (run_loaded _ _ _ _ Hload).
  apply load_data_Ok in Hload as (_ & _ & _ & _ & _ & Hd & Hh & _).
  unfold sbind at 1. unfold lift, filtered_df, subscript.
  rewrite (getitem_elem _ _ _ Hd), (getitem_elem _ _ _ Hh),
    (getitem_missing _ _ _ Hmiss).
  destruct (date_range ui) as [|a [|b l]]; simpl in *; try lia.
  reflexivity.
Qed.

Lemma missing_payment_type_raises_at_filter_witness :
  run (mkSources
         (Some (mkFrame loader_columns (rows sample_trips)))
         (Some sample_zones))
    (mkInputs [19723; 19723] all_day payment_options)
  = (sidebar_page (Some 19723) (Some 19723),
     Raise (KeyError ["payment_type"])).
Proof.
  apply (missing_payment_type_raises_at_filter
           (mkSources (Some (mkFrame loader_columns (rows sample_trips)))
              (Some sample_zones))
           (mkInputs [19723; 19723] all_day payment_options)
           (mkFrame (loader_columns ++ derived_columns) (rows sample_df))
           sample_zones).
  - vm_compute. reflexivity.
  - discriminate.
  - apply (bool_decide_unpack _). vm_compute. exact I.
  - simpl. lia.
Defined.

Lemma zone_names_missing (zones_df : DataFrame ZoneRow) :
  missing_from zones_df ["LocationID"; "Zone"] <> [] ->
  zone_names zones_df
  = Raise (KeyError (missing_from zones_df ["LocationID"; "Zone"])).
Proof.
  intros Hne. unfold zone_names.
  destruct (missing_from zones_df ["LocationID"; "Zone"]);
    [contradiction | reflexivity].
Qed.

(** X10. A zone lookup without the [LocationID] or the [Zone] column is
    not noticed by the loader: the run draws the title, the sidebar, the
    five metrics and the tab bar, and only then raises a [KeyError] naming
    the missing lookup columns; no chart is drawn. *)
Theorem missing_zone_columns_raise_at_first_chart
    (src : Sources) (ui : Inputs) df zones view :
  load_data src = Ok (df, zones) ->
  "total_amount" ∈ columns df ->
  filtered_df df (date_range ui) (hour_range ui) (selected_payments ui)
  = Ok view ->
  rows df <> [] ->
  "LocationID" ∉ columns zones \/ "Zone" ∉ columns zones ->
  exists m,
    metrics_panel view = Ok m
    /\ missing_from zones ["LocationID"; "Zone"] <> []
    /\ run src ui
       = ((sidebar_page (series_min (map pickup_date (rows df)))
             (series_max (map pickup_date (rows df)))
           ++ metrics_elements m ++ [Tabs tab_names])%list,
          Raise (KeyError (missing_from zones ["LocationID"; "Zone"]))).
Proof.
  intros Hload Htot Hview _ Hmiss.
  assert (Hne : missing_from zones ["LocationID"; "Zone"] <> []).
  { intros Hnil. apply missing_from_nil in Hnil.
    rewrite !Forall_cons in Hnil. destruct Hnil as (? & ? & _).
    destruct Hmiss; contradiction. }
  destruct (view_chart_columns _ _ _ _ _ _ _ Hload Hview) as (Hpu & _).
  pose proof (metric_columns_of_view _ _ _ _ _ _ _ Hload Htot Hview) as Hc.
  pose proof (metrics_panel_run _ Hc) as Hm.
  eexists. split; [exact Hm|]. split; [exact Hne|].
  rewrite (run_loaded _ _ _ _ Hload). unfold sbind at 1. unfold lift.
  rewrite Hview. unfold sbind at 1.
  rewrite (render_metrics_panel _ _ _ Hm).
  unfold render_tabs. unfold sbind at 1. unfold emit at 1.
  unfold sbind at 1. unfold lift at 1. unfold top_zones.
  rewrite (getitem_elem _ _ _ Hpu), (zone_names_missing _ Hne).
  simpl rbind. rewrite <- !app_assoc. reflexivity.
Qed.

Lemma missing_zone_columns_raise_at_first_chart_witness :
  exists m,
    metrics_panel sample_df = Ok m
    /\ missing_from (mkFrame ["LocationID"; "Borough"] (rows sample_zones))
         ["LocationID"; "Zone"] <> []
    /\ run (mkSources (Some sample_trips)
              (Some (mkFrame ["LocationID"; "Borough"] (rows sample_zones))))
         (mkInputs [19723; 19723] all_day payment_options)
       = ((sidebar_page (series_min (map pickup_date (rows sample_df)))
             (series_max (map pickup_date (rows sample_df)))
           ++ metrics_elements m ++ [Tabs tab_names])%list,
          Raise (KeyError
                   (missing_from
                      (mkFrame ["LocationID"; "Borough"] (rows sample_zones))
                      ["LocationID"; "Zone"]))).
Proof.
  apply (missing_zone_columns_raise_at_first_chart
           (mkSources (Some sample_trips)
              (Some (mkFrame ["LocationID"; "Borough"] (rows sample_zones))))
           (mkInputs [19723; 19723] all_day payment_options)
           sample_df
           (mkFrame ["LocationID"; "Borough"] (rows sample_zones))
           sample_df).
  - vm_compute. reflexivity.
  - vm_compute. repeat constructor.
  - vm_compute. reflexivity.
  - discriminate.
  - right. apply (bool_decide_unpack _). vm_compute. exact I.
Defined.

(** ** The busiest zones *)

Lemma nlargest_dominates {K} (n : nat) (s : list (K * nat)) (x y : K * nat) :
  x ∈ nlargest n s -> y ∈ s -> y ∉ nlargest n s -> (y.2 <= x.2)%nat.
Proof.
  unfold nlargest. set (L := sort_by _ s). intros Hx Hy Hny.
  assert (StronglySorted (fun a b : K * nat => Nat.leb b.2 a.2 = true)
            (take n L ++ drop n L)%list) as Hsorted.
  { rewrite take_drop. apply sort_by_sorted.
    - intros a b Hab. apply Nat.leb_gt in Hab. apply Nat.leb_le. lia.
    - intros a b c Hab Hbc. apply Nat.leb_le in Hab, Hbc.
      apply Nat.leb_le. lia. }
  assert (y ∈ drop n L) as Hdrop.
  { assert (y ∈ (take n L ++ drop n L)%list) as Hin
      by (rewrite take_drop; apply elem_of_sort_by, Hy).
    apply elem_of_app in Hin as [Hin|Hin]; [contradiction | exact Hin]. }
  apply Nat.leb_le.
  exact (StronglySorted_app_1_elem_of _ _ _ _ _ Hsorted Hx Hdrop).
Qed.

Lemma count_pos {K} `{EqDecision K} (k : K) (l : list K) :
  (0 < count k l)%nat <-> k ∈ l.
Proof.
  split.
  - intros Hpos. destruct (decide (k ∈ l)) as [Hin|Hout]; [exact Hin|].
    rewrite (count_0 _ _ Hout) in Hpos. lia.
  - induction 1 as [k l | k x l _ IH]; rewrite count_cons.
    + rewrite bool_decide_eq_true_2 by reflexivity. lia.
    + lia.
Qed.

(** X11. The chart does not pass over a busier zone: a zone of the lookup
    with more pickups in the view than some charted zone is itself on the
    chart, with its number of pickups; and every charted zone has at least
    one pickup in the view. *)
Theorem top_zones_are_the_busiest (src : Sources) df zones dr hr S view chart :
  load_data src = Ok (df, zones) ->
  filtered_df df dr hr S = Ok view ->
  top_zones view zones = Ok chart ->
  (forall t, t ∈ chart -> (1 <= trip_count t)%nat)
  /\ (forall t z,
        t ∈ chart -> z ∈ rows zones ->
        (trip_count t < pickups_in_zone (LocationID z) view)%nat ->
        exists t', t' ∈ chart /\ top_PULocationID t' = LocationID z
                   /\ top_Zone t' = Zone z
                   /\ trip_count t' = pickups_in_zone (LocationID z) view).
Proof.
  intros Hload Hview Hchart.
  destruct (view_chart_columns _ _ _ _ _ _ _ Hload Hview) as (Hpu & _).
  unfold top_zones in Hchart. rewrite (getitem_elem _ _ _ Hpu) in Hchart.
  simpl rbind in Hchart.
  bind_inv Hchart. injection Hchart as <-.
  assert (a = map (fun z => (LocationID z, Zone z)) (rows zones)) as ->.
  { unfold zone_names in Hstep.
    destruct (missing_from zones ["LocationID"; "Zone"]); [|discriminate].
    injection Hstep as <-. reflexivity. }
  unfold pickups_in_zone.
  set (pu := dropnull (map PULocationID (rows view))).
  split.
  - intros t Ht. apply elem_of_merge in Ht as (l & z & Hl & _ & _ & ->).
    simpl. apply nlargest_elem, elem_of_groupby_size in Hl as [Hin ->].
    apply count_pos, Hin.
  - intros t z Ht Hz Hlt.
    apply elem_of_merge in Ht as (l & z0 & Hl & _ & _ & ->). simpl in Hlt.
    set (k := LocationID z) in *.
    assert ((k, count k pu) ∈ groupby_size Z.leb (map PULocationID (rows view)))
      as Hk.
    { apply elem_of_groupby_size. simpl. split; [|reflexivity].
      apply count_pos. fold pu. lia. }
    destruct (decide ((k, count k pu)
                        ∈ nlargest 10
                            (groupby_size Z.leb
                               (map PULocationID (rows view)))))
      as [Hin|Hout].
    + exists (mkTopZone k (count k pu) (LocationID z) (Zone z)).
      split; [|auto].
      apply elem_of_merge. exists (k, count k pu), (LocationID z, Zone z).
      split; [exact Hin|]. split; [|auto].
      apply list_elem_of_In, in_map_iff. exists z.
      split; [reflexivity | apply list_elem_of_In, Hz].
    + pose proof (nlargest_dominates _ _ _ _ Hl Hk Hout) as Hle.
      simpl in Hle. lia.
Qed.

Lemma top_zones_are_the_busiest_witness :
  let chart := [mkTopZone 132 1 132 "JFK Airport";
                mkTopZone 161 1 161 "Midtown Center"] in
  (forall t, t ∈ chart -> (1 <= trip_count t)%nat)
  /\ (forall t z,
        t ∈ chart -> z ∈ rows sample_zones ->
        (trip_count t < pickups_in_zone (LocationID z) sample_df)%nat ->
        exists t', t' ∈ chart /\ top_PULocationID t' = LocationID z
                   /\ top_Zone t' = Zone z
                   /\ trip_count t'
                      = pickups_in_zone (LocationID z) sample_df).
Proof.
  apply (top_zones_are_the_busiest sample_sources sample_df sample_zones
           [19723; 19723] all_day payment_options sample_df).
  - vm_compute. reflexivity.
  - vm_compute. reflexivity.
  - vm_compute. reflexivity.
Defined.

(** ** Average fare by hour *)

Lemma StronglySorted_strict (l : list Z) :
  StronglySorted (fun a b => Z.leb a b = true) l -> NoDup l ->
  StronglySorted Z.lt l.
Proof.
  induction 1 as [|a l Hl IH Ha]; intros Hnd; constructor.
  - apply IH. apply NoDup_cons in Hnd. tauto.
  - apply NoDup_cons in Hnd as [Hout _].
    rewrite Forall_forall in *. intros b Hb.
    pose proof (Ha b Hb) as Hle. apply Z.leb_le in Hle.
    assert (a <> b) by (intros ->; contradiction). lia.
Qed.

Lemma sort_Z_strict (l : list Z) :
  NoDup l -> StronglySorted Z.lt (sort_by Z.leb l).
Proof.
  intros Hnd. apply StronglySorted_strict; [|apply NoDup_sort_by, Hnd].
  apply sort_by_sorted.
  - intros x y Hxy. apply Z.leb_gt in Hxy. apply Z.leb_le. lia.
  - intros x y z Hxy Hyz. apply Z.leb_le in Hxy, Hyz. apply Z.leb_le. lia.
Qed.




(** ** Order and total of the weekday-by-hour grid *)

Lemma string_compare_refl (a : string) : String.compare a a = Eq.
Proof. apply OrderedTypeEx.String_as_OT.cmp_eq. reflexivity. Qed.

Lemma string_compare_trans (a b c : string) :
  String.compare a b = Lt -> String.compare b c = Lt ->
  String.compare a c = Lt.
Proof.
  intros Hab Hbc.
  apply OrderedTypeEx.String_as_OT.cmp_lt in Hab, Hbc.
  apply OrderedTypeEx.String_as_OT.cmp_lt.
  eapply OrderedTypeEx.String_as_OT.lt_trans; eassumption.
Qed.

Lemma key_le_total (a b : string * Z) : key_le a b = false -> key_le b a = true.
Proof.
  unfold key_le. rewrite (String.compare_antisym a.1 b.1).
  destruct (String.compare b.1 a.1); simpl; try congruence.
  intros Hab. apply Z.leb_gt in Hab. apply Z.leb_le. lia.
Qed.

Lemma key_le_trans (a b c : string * Z) :
  key_le a b = true -> key_le b c = true -> key_le a c = true.
Proof.
  unfold key_le.
  destruct (String.compare a.1 b.1) eqn:Hab; try discriminate;
    destruct (String.compare b.1 c.1) eqn:Hbc; try discriminate; intros H1 H2.
  - apply String.compare_eq_iff in Hab, Hbc.
    rewrite Hab, Hbc, string_compare_refl.
    apply Z.leb_le in H1, H2. apply Z.leb_le. lia.
  - apply String.compare_eq_iff in Hab. rewrite Hab, Hbc. reflexivity.
  - apply String.compare_eq_iff in Hbc. rewrite <- Hbc, Hab. reflexivity.
  - rewrite (string_compare_trans _ _ _ Hab Hbc). reflexivity.
Qed.

Lemma key_le_weekday (a b : string * Z) :
  key_le a b = true -> String.leb a.1 b.1 = true.
Proof.
  unfold key_le, String.leb.
  destruct (String.compare a.1 b.1); [reflexivity.. | discriminate].
Qed.

Lemma StronglySorted_map {A B} (R : A -> A -> Prop) (R' : B -> B -> Prop)
    (f : A -> B) (l : list A) :
  (forall a b, R a b -> R' (f a) (f b)) ->
  StronglySorted R l -> StronglySorted R' (map f l).
Proof.
  intros Hf. induction 1 as [|a l _ IH Ha]; simpl; constructor; [exact IH|].
  apply Forall_forall. intros b Hb.
  apply list_elem_of_In, in_map_iff in Hb as (x & <- & Hx).
  rewrite Forall_forall in Ha. apply Hf, Ha, list_elem_of_In, Hx.
Qed.

Lemma StronglySorted_filter_bool {A} (R : A -> A -> Prop) (f : A -> bool)
    (l : list A) :
  StronglySorted R l -> StronglySorted R (List.filter f l).
Proof.
  induction 1 as [|a l _ IH Ha]; simpl; [constructor|].
  destruct (f a); [|exact IH]. constructor; [exact IH|].
  apply Forall_forall. intros b Hb.
  apply list_elem_of_In, filter_In in Hb as [Hb _].
  rewrite Forall_forall in Ha. apply Ha, list_elem_of_In, Hb.
Qed.

Lemma StronglySorted_unique {K} `{EqDecision K} (R : K -> K -> Prop)
    (l : list K) :
  StronglySorted R l -> StronglySorted R (unique l).
Proof.
  induction 1 as [|a l _ IH Ha]; simpl; constructor.
  - apply StronglySorted_filter_bool, IH.
  - apply Forall_forall. intros b Hb.
    apply list_elem_of_In, filter_In in Hb as [Hb _].
    rewrite <- list_elem_of_In, elem_of_unique in Hb.
    rewrite Forall_forall in Ha. apply Ha, Hb.
Qed.

Lemma StronglySorted_strict_string (l : list string) :
  StronglySorted (fun a b => String.leb a b = true) l -> NoDup l ->
  StronglySorted (fun a b => String.ltb a b = true) l.
Proof.
  induction 1 as [|a l Hl IH Ha]; intros Hnd; constructor.
  - apply IH. apply NoDup_cons in Hnd. tauto.
  - apply NoDup_cons in Hnd as [Hout _].
    rewrite Forall_forall in *. intros b Hb.
    pose proof (Ha b Hb) as Hle. unfold String.leb in Hle.
    unfold String.ltb.
    destruct (String.compare a b) eqn:Hc; [|reflexivity|discriminate].
    apply String.compare_eq_iff in Hc. subst b. contradiction.
Qed.

(** X13. The rows of the grid are in alphabetical order of the weekday
    name and its columns in ascending order of the hour, both without
    repetition. *)
Theorem heatmap_labels_ordered (src : Sources) df zones dr hr S view g :
  load_data src = Ok (df, zones) ->
  filtered_df df dr hr S = Ok view ->
  weekly view = Ok g ->
  StronglySorted (fun a b => String.ltb a b = true) (grid_index g)
  /\ StronglySorted Z.lt (grid_columns g).
Proof.
  intros Hload Hview Hg.
  destruct (view_chart_columns _ _ _ _ _ _ _ Hload Hview)
    as (_ & _ & Hh & _ & _ & Hw).
  unfold weekly in Hg.
  rewrite (getitem_elem _ _ _ Hw), (getitem_elem _ _ _ Hh) in Hg.
  simpl rbind in Hg. injection Hg as <-. unfold unstack; simpl.
  split; [|apply sort_Z_strict, NoDup_unique].
  apply StronglySorted_strict_string; [|apply NoDup_unique].
  apply StronglySorted_unique.
  unfold groupby_size. rewrite List.map_map. simpl.
  apply (StronglySorted_map (fun a b => key_le a b = true)).
  - intros a b. apply key_le_weekday.
  - apply sort_by_sorted; [apply key_le_total | apply key_le_trans].
Qed.

Lemma heatmap_labels_ordered_witness :
  StronglySorted (fun a b => String.ltb a b = true)
    (grid_index (mkGrid ["Monday"] [8; 9] [[1%nat; 1%nat]]))
  /\ StronglySorted Z.lt
       (grid_columns (mkGrid ["Monday"] [8; 9] [[1%nat; 1%nat]])).
Proof.
  apply (heatmap_labels_ordered sample_sources sample_df sample_zones
           [19723; 19723] all_day payment_options sample_df).
  - vm_compute. reflexivity.
  - vm_compute. reflexivity.
  - vm_compute. reflexivity.
Defined.

Section Sums.
Context {A : Type}.

Lemma sum_list_with_pointwise (f g : A -> nat) (l : list A) :
  (forall x, x ∈ l -> f x = g x) -> sum_list_with f l = sum_list_with g l.
Proof.
  induction l as [|x l IH]; intros Hfg; simpl; [reflexivity|].
  rewrite (Hfg x) by left. rewrite IH; [reflexivity|].
  intros y Hy. apply Hfg. right. exact Hy.
Qed.

Lemma sum_list_with_plus (f g : A -> nat) (l : list A) :
  sum_list_with (fun x => (f x + g x)%nat) l
  = (sum_list_with f l + sum_list_with g l)%nat.
Proof. induction l as [|x l IH]; simpl; [reflexivity | rewrite IH; lia]. Qed.

Lemma sum_list_map (g : A -> nat) (l : list A) :
  sum_list (map g l) = sum_list_with g l.
Proof. induction l as [|x l IH]; simpl; [reflexivity | rewrite IH; reflexivity]. Qed.

Lemma sum_list_with_zero (l : list A) :
  sum_list_with (fun _ => 0%nat) l = 0%nat.
Proof. induction l as [|x l IH]; simpl; [reflexivity | exact IH]. Qed.

Lemma sum_indicator `{EqDecision A} (a : A) (c : nat) (l : list A) :
  NoDup l ->
  sum_list_with (fun x => if bool_decide (x = a) then c else 0%nat) l
  = if bool_decide (a ∈ l) then c else 0%nat.
Proof.
  induction 1 as [|x l Hx _ IH].
  - rewrite bool_decide_eq_false_2; [reflexivity | apply not_elem_of_nil].
  - change (sum_list_with ?f (x :: l)) with (f x + sum_list_with f l)%nat.
    cbv beta. rewrite IH. destruct (decide (x = a)) as [->|Hne].
    + rewrite bool_decide_eq_true_2 by reflexivity.
      rewrite (bool_decide_eq_false_2 (a ∈ l)) by exact Hx.
      rewrite bool_decide_eq_true_2 by left. lia.
    + rewrite bool_decide_eq_false_2 by exact Hne. simpl.
      destruct (decide (a ∈ l)) as [Hin|Hout].
      * rewrite !bool_decide_eq_true_2; [reflexivity | right; exact Hin | exact Hin].
      * rewrite !bool_decide_eq_false_2; [reflexivity | | exact Hout].
        rewrite not_elem_of_cons. split; [congruence | exact Hout].
Qed.
End Sums.

Lemma sum_concat_table {A B} (f : A -> B -> nat) (idx : list A)
    (cols : list B) :
  sum_list (concat (map (fun d => map (f d) cols) idx))
  = sum_list_with (fun d => sum_list_with (f d) cols) idx.
Proof.
  induction idx as [|d idx IH]; simpl; [reflexivity|].
  rewrite sum_list_with_app, IH, sum_list_map. reflexivity.
Qed.

Lemma sum_pair_indicator (k : string * Z) (idx : list string) (cols : list Z) :
  NoDup idx -> NoDup cols ->
  sum_list_with
    (fun d => sum_list_with
                (fun h => if bool_decide (k = (d, h)) then 1%nat else 0%nat)
                cols)
    idx
  = if bool_decide (k.1 ∈ idx /\ k.2 ∈ cols) then 1%nat else 0%nat.
Proof.
  intros Hidx Hcols. destruct k as [kd kh]. simpl.
  rewrite (sum_list_with_pointwise _
             (fun d => if bool_decide (d = kd)
                       then (if bool_decide (kh ∈ cols) then 1%nat else 0%nat)
                       else 0%nat)).
  - rewrite (sum_indicator kd _ idx Hidx).
    destruct (decide (kd ∈ idx)) as [Hd|Hd], (decide (kh ∈ cols)) as [Hh|Hh].
    + rewrite !bool_decide_eq_true_2 by auto. reflexivity.
    + rewrite (bool_decide_eq_true_2 _ Hd), (bool_decide_eq_false_2 _ Hh),
        bool_decide_eq_false_2 by tauto. reflexivity.
    + rewrite (bool_decide_eq_false_2 _ Hd), bool_decide_eq_false_2 by tauto.
      reflexivity.
    + rewrite (bool_decide_eq_false_2 _ Hd), bool_decide_eq_false_2 by tauto.
      reflexivity.
  - intros d _. destruct (decide (d = kd)) as [->|Hne].
    + rewrite bool_decide_eq_true_2 by reflexivity.
      rewrite <- (sum_indicator kh 1%nat cols Hcols).
      apply sum_list_with_pointwise. intros h _.
      destruct (decide (h = kh)) as [->|Hh].
      * rewrite !bool_decide_eq_true_2 by reflexivity. reflexivity.
      * rewrite !bool_decide_eq_false_2 by congruence. reflexivity.
    + rewrite bool_decide_eq_false_2 by exact Hne.
      transitivity (sum_list_with (fun _ : Z => 0%nat) cols);
        [|apply sum_list_with_zero].
      apply sum_list_with_pointwise. intros h _.
      rewrite bool_decide_eq_false_2 by congruence. reflexivity.
Qed.

Lemma sum_table_counts (ks : list (string * Z)) (idx : list string)
    (cols : list Z) :
  NoDup idx -> NoDup cols ->
  sum_list_with (fun d => sum_list_with (fun h => count (d, h) ks) cols) idx
  = length (List.filter
              (fun k : string * Z => bool_decide (k.1 ∈ idx /\ k.2 ∈ cols))
              ks).
Proof.
  intros Hidx Hcols. induction ks as [|k ks IH]; simpl.
  - transitivity (sum_list_with (fun _ : string => 0%nat) idx);
      [|apply sum_list_with_zero].
    apply sum_list_with_pointwise. intros d _.
    transitivity (sum_list_with (fun _ : Z => 0%nat) cols);
      [|apply sum_list_with_zero].
    apply sum_list_with_pointwise. reflexivity.
  - rewrite (sum_list_with_pointwise _
               (fun d => (sum_list_with
                            (fun h => if bool_decide (k = (d, h))
                                      then 1%nat else 0%nat) cols
                          + sum_list_with (fun h => count (d, h) ks) cols)%nat)).
    + rewrite sum_list_with_plus, IH, (sum_pair_indicator k idx cols Hidx Hcols).
      destruct (bool_decide (k.1 ∈ idx /\ k.2 ∈ cols)); simpl; lia.
    + intros d _. rewrite <- sum_list_with_plus.
      apply sum_list_with_pointwise. intros h _. apply count_cons.
Qed.

Lemma length_weekly_keys (trips : list Trip) :
  Forall cleaned trips ->
  length (dropnull (map weekly_key trips)) = length trips.
Proof.
  induction 1 as [|r l (p & q & Hc) _ IH]; [reflexivity|].
  rewrite map_cons. unfold weekly_key at 1.
  rewrite (dayofweek_derived _ _ _ Hc), (hour_derived _ _ _ Hc).
  simpl pair_key. rewrite dropnull_cons_Some. simpl. rewrite IH. reflexivity.
Qed.

(** X14. The cells of the grid add up to the number of trips of the view:
    every trip is counted in exactly one cell. *)
Theorem heatmap_counts_every_trip (src : Sources) df zones dr hr S view g :
  load_data src = Ok (df, zones) ->
  filtered_df df dr hr S = Ok view ->
  weekly view = Ok g ->
  sum_list (concat (grid_values g)) = length (rows view).
Proof.
  intros Hload Hview Hg.
  destruct (view_chart_columns _ _ _ _ _ _ _ Hload Hview)
    as (_ & _ & Hh & _ & _ & Hw).
  destruct (filtered_view _ _ _ _ _ _ _ Hload Hview)
    as (_ & _ & _ & _ & _ & Hclean & _).
  unfold weekly in Hg.
  rewrite (getitem_elem _ _ _ Hw), (getitem_elem _ _ _ Hh) in Hg.
  simpl rbind in Hg. rewrite (zip_with_map_same pair_key) in Hg.
  injection Hg as <-. unfold unstack; simpl.
  change (fun r : Trip => pair_key (pickup_dayofweek r) (pickup_hour r))
    with weekly_key.
  set (ks := dropnull (map weekly_key (rows view))).
  set (s := groupby_size key_le (map weekly_key (rows view))).
  set (idx := unique (map (fun e : string * Z * nat => e.1.1) s)).
  set (cols := sort_by Z.leb (unique (map (fun e : string * Z * nat => e.1.2) s))).
  rewrite (sum_concat_table
             (fun d h => default 0%nat (lookup_count (d, h) s)) idx cols).
  rewrite (sum_list_with_pointwise _
             (fun d => sum_list_with (fun h => count (d, h) ks) cols)).
  2:{ intros d _. apply sum_list_with_pointwise. intros h _.
      apply lookup_count_groupby. }
  rewrite sum_table_counts;
    [|apply NoDup_unique | apply NoDup_sort_by, NoDup_unique].
  rewrite filter_all; [apply length_weekly_keys, Hclean|].
  apply Forall_forall. intros k Hk. apply bool_decide_eq_true.
  assert ((k, count k ks) ∈ s) as Hin
    by (apply elem_of_groupby_size; split; [exact Hk | reflexivity]).
  split.
  - subst idx. rewrite elem_of_unique.
    apply list_elem_of_In, in_map_iff. exists (k, count k ks).
    split; [reflexivity | apply list_elem_of_In, Hin].
  - subst cols. rewrite elem_of_sort_by, elem_of_unique.
    apply list_elem_of_In, in_map_iff. exists (k, count k ks).
    split; [reflexivity | apply list_elem_of_In, Hin].
Qed.

Lemma heatmap_counts_every_trip_witness :
  sum_list (concat (grid_values (mkGrid ["Monday"] [8; 9] [[1%nat; 1%nat]])))
  = length (rows sample_df).
Proof.
  apply (heatmap_counts_every_trip sample_sources sample_df sample_zones
           [19723; 19723] all_day payment_options sample_df).
  - vm_compute. reflexivity.
  - vm_compute. reflexivity.
  - vm_compute. reflexivity.
Defined.

(** ** The payment breakdown *)

Lemma NoDup_map_inj_on {A B} (f : A -> B) (l : list A) :
  NoDup l ->
  (forall a b, a ∈ l -> b ∈ l -> f a = f b -> a = b) ->
  NoDup (map f l).
Proof.
  induction 1 as [|x l Hx _ IH]; intros Hinj; simpl; constructor.
  - intros Hin. apply list_elem_of_In, in_map_iff in Hin as (y & Heq & Hy).
    apply list_elem_of_In in Hy.
    assert (y = x) as -> by (apply Hinj; [right; exact Hy | left | exact Heq]).
    contradiction.
  - apply IH. intros a b Ha Hb. apply Hinj; right; assumption.
Qed.

Lemma payment_labels_total (p : Z) :
  p ∈ payment_options -> is_Some (payment_labels !! p).
Proof.
  unfold payment_options. intros Hp.
  repeat (apply elem_of_cons in Hp as [->|Hp];
          [eexists; vm_compute; reflexivity|]).
  apply elem_of_nil in Hp. contradiction.
Qed.

Lemma payment_labels_distinct (p q : Z) :
  p ∈ payment_options -> q ∈ payment_options ->
  payment_labels !! p = payment_labels !! q -> p = q.
Proof.
  unfold payment_options. intros Hp Hq.
  repeat (apply elem_of_cons in Hp as [->|Hp]);
    try (apply elem_of_nil in Hp; contradiction);
    repeat (apply elem_of_cons in Hq as [->|Hq]);
    try (apply elem_of_nil in Hq; contradiction);
    vm_compute; intros Heq; congruence.
Qed.

Lemma value_counts_codes {K} `{EqDecision K} (s : Series (option K)) :
  map fst (value_counts_normalize s) ≡ₚ unique (dropnull s).
Proof.
  unfold value_counts_normalize. rewrite List.map_map. simpl.
  rewrite <- (List.map_map fst (fun k => k)), map_id.
  rewrite (Permutation_map fst (sort_by_perm _ _)).
  rewrite List.map_map. simpl. rewrite map_id. reflexivity.
Qed.

(** X15. When the selected payment codes are among the five options, the
    pie chart of a filtered view has one slice for each payment type that
    occurs in the view and no other, every slice carries a label, no label
    occurs twice, and there are at most five slices. *)
Theorem payment_breakdown_slices (src : Sources) df zones dr hr S view :
  load_data src = Ok (df, zones) ->
  filtered_df df dr hr S = Ok view ->
  Forall (fun p => p ∈ payment_options) S ->
  exists slices,
    payment_counts view = Ok slices
    /\ (length slices <= 5)%nat
    /\ NoDup (map fst slices)
    /\ Forall (fun s : option string * float => is_Some s.1) slices
    /\ (forall label,
          Some label ∈ map fst slices
          <-> exists r p, r ∈ rows view /\ payment_type r = Some p
                          /\ payment_labels !! p = Some label).
Proof.
  intros Hload Hview HS.
  destruct (view_chart_columns _ _ _ _ _ _ _ Hload Hview) as (_ & Hp & _).
  assert (Hcodes : forall p, p ∈ dropnull (map payment_type (rows view))
                     -> p ∈ payment_options).
  { intros p Hin. apply elem_of_dropnull in Hin.
    apply list_elem_of_In, in_map_iff in Hin as (r & Hr & Hin).
    apply filtered_df_Ok in Hview as (d0 & d1 & _ & _ & _ & ->).
    simpl in Hin. apply filter_In in Hin as [_ Hsel].
    apply selects_iff in Hsel as (_ & _ & (p' & Hp' & HpS)).
    rewrite Hr in Hp'. injection Hp' as <-.
    rewrite Forall_forall in HS. apply HS, HpS. }
  unfold payment_counts. rewrite (getitem_elem _ _ _ Hp). simpl rbind.
  eexists. split; [reflexivity|].
  set (payments := map payment_type (rows view)) in *.
  assert (Hlabels :
            map fst
              (map (fun kp : Z * float => (payment_labels !! kp.1, kp.2))
                 (map (fun kp : Z * float => (kp.1, PrimFloat.mul kp.2 100))
                    (value_counts_normalize payments)))
            = map (fun k => payment_labels !! k)
                (map fst (value_counts_normalize payments))).
  { rewrite !List.map_map. reflexivity. }
  pose proof (value_counts_codes payments) as Hperm.
  assert (Hnd : NoDup (map fst (value_counts_normalize payments)))
    by (rewrite Hperm; apply NoDup_unique).
  assert (Hmem : forall p, p ∈ map fst (value_counts_normalize payments)
                   <-> p ∈ dropnull payments)
    by (intros p; rewrite Hperm; apply elem_of_unique).
  split.
  { rewrite !length_map, <- (length_map fst).
    change 5%nat with (length payment_options).
    apply NoDup_bounded_length; [exact Hnd|].
    intros p Hin. apply Hcodes, Hmem, Hin. }
  split.
  { rewrite Hlabels. apply NoDup_map_inj_on; [exact Hnd|].
    intros a b Ha Hb. apply payment_labels_distinct; apply Hcodes, Hmem;
      assumption. }
  split.
  { apply Forall_forall. intros s Hs.
    assert (s.1 ∈ map (fun k => payment_labels !! k)
                   (map fst (value_counts_normalize payments))) as Hin.
    { rewrite <- Hlabels. apply list_elem_of_In, in_map, list_elem_of_In, Hs. }
    apply list_elem_of_In, in_map_iff in Hin as (k & <- & Hk).
    apply payment_labels_total, Hcodes, Hmem, list_elem_of_In, Hk. }
  intros label. rewrite Hlabels, list_elem_of_In, in_map_iff. split.
  - intros (k & Hk & Hin). apply list_elem_of_In, Hmem, elem_of_dropnull in Hin.
    apply list_elem_of_In, in_map_iff in Hin as (r & Hr & Hin).
    exists r, k. rewrite list_elem_of_In. auto.
  - intros (r & p & Hr & Hpay & Hlab). exists p. split; [exact Hlab|].
    apply list_elem_of_In, Hmem, elem_of_dropnull.
    rewrite <- Hpay. apply list_elem_of_In, in_map, list_elem_of_In, Hr.
Qed.

Lemma payment_breakdown_slices_witness :
  exists slices,
    payment_counts sample_df = Ok slices
    /\ (length slices <= 5)%nat
    /\ NoDup (map fst slices)
    /\ Forall (fun s : option string * float => is_Some s.1) slices
    /\ (forall label,
          Some label ∈ map fst slices
          <-> exists r p, r ∈ rows sample_df /\ payment_type r = Some p
                          /\ payment_labels !! p = Some label).
Proof.
  apply (payment_breakdown_slices sample_sources sample_df sample_zones
           [19723; 19723] all_day payment_options).
  - vm_compute. reflexivity.
  - vm_compute. reflexivity.
  - repeat constructor.
Defined.
